(** * sqlsprinkler: the [Zone] and [System] client classes

    A shallow embedding of [src/sqlsprinkler/zone.py] and
    [src/sqlsprinkler/system.py].

    Both classes are thin wrappers over HTTP requests, so the embedding has
    three layers:
    - the Python values that travel through the code (decoded JSON);
    - the outside world: a log of the requests issued and a server that
      answers each request from the history so far;
    - the objects: [Zone] instances live in a store indexed by reference,
      because [System.zones] holds references to them and the methods update
      them in place.

    Methods are written in a state-and-exception monad in which an exception
    keeps every assignment made before it, as in Python. *)

From stdpp Require Import gmap strings list pretty.
From Stdlib Require Import ZArith.

Open Scope Z_scope.
Set Warnings "-register-all".

(** ** Python values

    Every value that reaches the code comes out of [Response.json()] or is a
    method argument; integers stand for JSON numbers (the service's numeric
    fields are integers). A dictionary keeps its keys in insertion order. *)

Inductive value : Type :=
| VNone
| VBool (b : bool)
| VInt (n : Z)
| VStr (s : string)
| VList (l : list value)
| VDict (d : list (string * value)).

(** The exceptions the two modules can raise. The explicit ones are all
    [Exception(f"...")] in the source; a constructor stands for one message
    template and carries the values interpolated in it. The others are raised
    by the interpreter or by [requests]. *)

Inductive exn : Type :=
| SetSystemStateFailed (state : bool)
    (* Exception(f"Failed to set system state {state}") *)
| ZoneNotFound (zone_id : Z)
    (* Exception(f"Zone {zone_id} not found") *)
| AddZoneFailed (zone : value)
    (* Exception(f"Failed to add zone {zone}"), with the dataclass repr of
       the zone carried as the dictionary of its fields *)
| DeleteZoneFailed (zone_id : Z)
    (* Exception(f"Failed to delete zone {zone_id}") *)
| UpdateZoneOrderFailed (zone_order : list Z)
    (* Exception(f"Failed to update zone order {zone_order}") *)
| ZoneUpdateFailed (status_code : Z) (zone_json : value)
    (* Exception(f"Zone did not update successfully ({req.status_code}).
       Payload: {zone_json}") *)
| TypeError
| KeyError (key : string)
| AttributeError (attr : string)
| JSONDecodeError
| RequestException
| InvalidReference.
    (* a reference to no object: cannot arise in Python, where a reference
       keeps its object alive *)

(** The taxonomy of the specification (section 7). *)

Inductive error_class : Type :=
| NotFoundError | OperationError | DecodeError | NetworkError | InternalError.

Definition classify (e : exn) : error_class :=
  match e with
  | ZoneNotFound _ => NotFoundError
  | SetSystemStateFailed _ | AddZoneFailed _ | DeleteZoneFailed _
  | UpdateZoneOrderFailed _ | ZoneUpdateFailed _ _ => OperationError
  | KeyError _ | JSONDecodeError => DecodeError
  | RequestException => NetworkError
  | TypeError | AttributeError _ | InvalidReference => InternalError
  end.

(** ** Results and the method monad *)

Inductive result (A : Type) : Type :=
| Ok (a : A)
| Raise (e : exn).
Arguments Ok {A} a.
Arguments Raise {A} e.

(** A computation over a state [S]: it returns normally or raises, and in
    both cases hands back the state it reached. *)
Definition M (S A : Type) : Type := S -> result A * S.

Definition ret {S A} (a : A) : M S A := fun s => (Ok a, s).

Definition bind {S A B} (c : M S A) (k : A -> M S B) : M S B :=
  fun s => match c s with
           | (Ok a, s') => k a s'
           | (Raise e, s') => (Raise e, s')
           end.

Definition raise {S A} (e : exn) : M S A := fun s => (Raise e, s).
Definition get {S} : M S S := fun s => (Ok s, s).
Definition gets {S A} (f : S -> A) : M S A := fun s => (Ok (f s), s).
Definition modify {S} (f : S -> S) : M S unit := fun s => (Ok tt, f s).

(** A pure step that may raise. *)
Definition of_result {S A} (r : result A) : M S A := fun s => (r, s).

Declare Scope py_scope.
Delimit Scope py_scope with py.
Notation "x <- c ;; k" := (bind c (fun x => k))
  (at level 100, c at next level, k at level 200, right associativity,
   only parsing) : py_scope.
Notation "c ;; k" := (bind c (fun _ => k))
  (at level 100, k at level 200, only parsing) : py_scope.
Open Scope py_scope.

(** ** Python operations on values *)

(** [iter(v)], as a [for] loop consumes it: the elements of a list, the keys
    of a dictionary, the characters of a string. *)
Definition py_iter (v : value) : result (list value) :=
  match v with
  | VList l => Ok l
  | VDict d => Ok (map (fun kv => VStr (fst kv)) d)
  | VStr s => Ok (map (fun c => VStr (String c EmptyString)) (String.list_ascii_of_string s))
  | VNone | VBool _ | VInt _ => Raise TypeError
  end.

Fixpoint dict_get (d : list (string * value)) (key : string) : option value :=
  match d with
  | [] => None
  | (k, v) :: d' => if String.eqb k key then Some v else dict_get d' key
  end.

(** [v[key]] for a string [key]. *)
Definition py_getitem (v : value) (key : string) : result value :=
  match v with
  | VDict d => match dict_get d key with
               | Some x => Ok x
               | None => Raise (KeyError key)
               end
  | _ => Raise TypeError
  end.

(** ** HTTP *)

Inductive verb : Type := GET | PUT | POST | DELETE.

Record request : Type := Request {
  method : verb;
  url : string;
  json : option value
}.

(** A [requests.Response]: its status code and its body, [None] when the body
    is not JSON. *)
Record response : Type := Response {
  status_code : Z;
  body : option value
}.

(** What [requests.<verb>(...)] does: it returns a response or raises on a
    transport failure. *)
Inductive reply : Type :=
| Answer (r : response)
| ConnectionError.

(** The server answers a request knowing the requests made before it. *)
Definition server : Type := list request -> request -> reply.

(** [Response.json()]. *)
Definition response_json (r : response) : result value :=
  match body r with
  | Some v => Ok v
  | None => Raise JSONDecodeError
  end.

(** The constants of the module [sqlsprinkler.API], which is not among the
    sources: the methods take them as a parameter. *)
Record API : Type := mkAPI {
  ZONE_INFO_URL : string;
  SYSTEM_STATE_URL : string;
  ZONE_URL : string;
  ZONE_UPDATE_URL : string;
  ZONE_ORDER_URL : string
}.

Definition loc : Type := positive.

(** ** The class [Zone] (zone.py) *)

Module Zone.

(** The dataclass fields, in declaration order. [id] is assigned by the
    constructor only, so it keeps its annotated type; the other fields are
    also assigned whatever [Response.json()] holds, so they are Python
    values. *)
Record t : Type := mk {
  name : value;
  gpio : value;
  time : value;
  enabled : value;
  auto_off : value;
  system_order : value;
  state : value;
  id : Z
}.

Definition set_name_field (v : value) (z : t) : t :=
  mk v (gpio z) (time z) (enabled z) (auto_off z) (system_order z) (state z) (id z).
Definition set_gpio_field (v : value) (z : t) : t :=
  mk (name z) v (time z) (enabled z) (auto_off z) (system_order z) (state z) (id z).
Definition set_time_field (v : value) (z : t) : t :=
  mk (name z) (gpio z) v (enabled z) (auto_off z) (system_order z) (state z) (id z).
Definition set_enabled_field (v : value) (z : t) : t :=
  mk (name z) (gpio z) (time z) v (auto_off z) (system_order z) (state z) (id z).
Definition set_auto_off_field (v : value) (z : t) : t :=
  mk (name z) (gpio z) (time z) (enabled z) v (system_order z) (state z) (id z).
Definition set_system_order_field (v : value) (z : t) : t :=
  mk (name z) (gpio z) (time z) (enabled z) (auto_off z) v (state z) (id z).
Definition set_state_field (v : value) (z : t) : t :=
  mk (name z) (gpio z) (time z) (enabled z) (auto_off z) (system_order z) v (id z).

(** [Zone()]: every field from its [default_factory]. *)
Definition default : t :=
  mk (VStr "") (VInt 0) (VInt 0) (VBool false) (VBool false) (VInt 0)
     (VBool false) 0.

(** [Zone(arg)]: the generated [__init__] binds one positional argument to
    its first parameter, [name] ([host] has no annotation and is no
    field). *)
Definition positional (arg : value) : t := set_name_field arg default.

(** The dataclass [repr], as the dictionary of the fields it prints. *)
Definition repr (z : t) : value :=
  VDict [("name", name z); ("gpio", gpio z); ("time", time z);
         ("enabled", enabled z); ("auto_off", auto_off z);
         ("system_order", system_order z); ("state", state z);
         ("id", VInt (id z))]%string.

(** Everything outside a [System] object: the [Zone] objects by reference,
    the class attribute [Zone.host], and the requests issued so far. *)
Record world : Type := World {
  heap : gmap loc t;
  host : string;
  log : list request
}.

(** The world once the request [r] has gone out. *)
Definition logged (r : request) (w : world) : world :=
  World (heap w) (host w) (log w ++ [r]).

(** Reading an attribute of [self]. *)
Definition load (self : loc) : M world t :=
  fun w => match heap w !! self with
           | Some z => (Ok z, w)
           | None => (Raise InvalidReference, w)
           end.

(** [self.<field> = v], with [f] the field update. *)
Definition setattr (self : loc) (f : t -> t) : M world unit :=
  z <- load self ;;
  modify (fun w => World (<[self := f z]> (heap w)) (host w) (log w)).

Section Methods.
Variable api : API.
Variable srv : server.

(** [requests.<verb>(url, json=...)]: the request is logged, and the
    server's reply is a response or a transport failure. *)
Definition send (r : request) : M world response :=
  fun w =>
    match srv (log w) r with
    | Answer resp => (Ok resp, logged r w)
    | ConnectionError => (Raise RequestException, logged r w)
    end.

(** [request.json()[key]] *)
Definition json_field (request : response) (key : string) : M world value :=
  v <- of_result (response_json request) ;;
  of_result (py_getitem v key).

Definition turn_on (self : loc) : M world unit :=
  setattr self (set_state_field (VBool true)) ;;
  h <- gets host ;;
  z <- load self ;;
  _ <- send (Request PUT (h +:+ "/" +:+ ZONE_URL api)
               (Some (VDict [("id", VInt (id z)); ("state", state z)]%string))) ;;
  ret tt.

Definition turn_off (self : loc) : M world unit :=
  setattr self (set_state_field (VBool false)) ;;
  h <- gets host ;;
  z <- load self ;;
  _ <- send (Request PUT (h +:+ "/" +:+ ZONE_URL api)
               (Some (VDict [("id", VInt (id z)); ("state", state z)]%string))) ;;
  ret tt.

Definition update (self : loc) : M world unit :=
  h <- gets host ;;
  z <- load self ;;
  request <- send (Request GET
                     (h +:+ "/" +:+ ZONE_INFO_URL api +:+ "/" +:+ pretty (id z))
                     None) ;;
  v <- json_field request "name" ;; setattr self (set_name_field v) ;;
  v <- json_field request "gpio" ;; setattr self (set_gpio_field v) ;;
  v <- json_field request "time" ;; setattr self (set_time_field v) ;;
  v <- json_field request "enabled" ;; setattr self (set_enabled_field v) ;;
  v <- json_field request "auto_off" ;; setattr self (set_auto_off_field v) ;;
  v <- json_field request "system_order" ;;
  setattr self (set_system_order_field v) ;;
  v <- json_field request "state" ;; setattr self (set_state_field v).

(** A call [self.update(arg, ...)]: [update] has no parameter besides
    [self], so any further positional argument is a [TypeError] before the
    body runs. *)
Definition call_update (self : loc) (args : list loc) : M world unit :=
  match args with
  | [] => update self
  | _ :: _ => raise TypeError
  end.

Definition update_other (self other : loc) : M world unit :=
  o <- load other ;; setattr self (set_name_field (name o)) ;;
  o <- load other ;; setattr self (set_gpio_field (gpio o)) ;;
  o <- load other ;; setattr self (set_time_field (time o)) ;;
  o <- load other ;; setattr self (set_enabled_field (enabled o)) ;;
  o <- load other ;; setattr self (set_auto_off_field (auto_off o)) ;;
  o <- load other ;; setattr self (set_system_order_field (system_order o)) ;;
  z <- load self ;;
  let zone_json :=
    VDict [("id", VInt (id z)); ("Name", name z); ("GPIO", gpio z);
           ("Time", time z); ("Enabled", enabled z);
           ("Autooff", auto_off z); ("SystemOrder", system_order z)]%string in
  h <- gets host ;;
  req <- send (Request PUT (h +:+ "/" +:+ ZONE_UPDATE_URL api) (Some zone_json)) ;;
  if negb (status_code req =? 200)
  then raise (ZoneUpdateFailed (status_code req) zone_json)
  else ret tt.

Definition enable (self : loc) : M world unit :=
  setattr self (set_enabled_field (VBool true)) ;;
  update_other self self.

Definition disable (self : loc) : M world unit :=
  setattr self (set_enabled_field (VBool false)) ;;
  update_other self self.

Definition set_time (self : loc) (time : Z) : M world unit :=
  setattr self (set_time_field (VInt time)) ;;
  update_other self self.

Definition set_gpio (self : loc) (gpio : Z) : M world unit :=
  setattr self (set_gpio_field (VInt gpio)) ;;
  update_other self self.

Definition set_name (self : loc) (name : string) : M world unit :=
  setattr self (set_name_field (VStr name)) ;;
  update_other self self.

Definition set_auto_off (self : loc) (auto_off : bool) : M world unit :=
  setattr self (set_auto_off_field (VBool auto_off)) ;;
  update_other self self.

Definition set_system_order (self : loc) (system_order : Z) : M world unit :=
  setattr self (set_system_order_field (VInt system_order)) ;;
  update_other self self.

End Methods.

End Zone.

(** ** The class [System] (system.py) *)

Module System.

(** The three dataclass fields, and the attribute [state] that
    [_update_system_state] creates on the instance ([None] until then).
    [system_state] is assigned what the server sent, so it is a value. *)
Record t : Type := mk {
  zones : list loc;
  system_state : value;
  host : string;
  state : option value
}.

(** A method runs on [self] and the world around it. *)
Definition st : Type := (t * Zone.world)%type.

Definition self_get {A} (f : t -> A) : M st A := gets (fun s => f (fst s)).
Definition self_set (f : t -> t) : M st unit :=
  modify (fun s => (f (fst s), snd s)).

(** Running a [Zone] method, or a request, from a [System] method. *)
Definition in_world {A} (c : M Zone.world A) : M st A :=
  fun s => match c (snd s) with (r, w') => (r, (fst s, w')) end.

Definition set_zones_field (zs : list loc) (s : t) : t :=
  mk zs (system_state s) (host s) (state s).
Definition set_system_state_field (v : value) (s : t) : t :=
  mk (zones s) v (host s) (state s).
Definition set_state_field (v : value) (s : t) : t :=
  mk (zones s) (system_state s) (host s) (Some v).

(** [next(filter(lambda zone: zone.id == zone_id, zones), None)] *)
Fixpoint first_with_id (h : gmap loc Zone.t) (zone_id : Z) (zs : list loc)
  : result (option loc) :=
  match zs with
  | [] => Ok None
  | l :: zs' =>
      match h !! l with
      | None => Raise InvalidReference
      | Some z => if Zone.id z =? zone_id then Ok (Some l)
                  else first_with_id h zone_id zs'
      end
  end.

Section Methods.
Variable api : API.
Variable srv : server.

(** The list built here is returned by value: the fresh [Zone] objects
    are referenced by nothing else. *)
Definition _fetch_zones : M st (list Zone.t) :=
  h <- self_get host ;;
  resp <- in_world (Zone.send srv (Request GET (h +:+ "/" +:+ ZONE_INFO_URL api) None)) ;;
  request <- of_result (response_json resp) ;;
  items <- of_result (py_iter request) ;;
  ret (map Zone.positional items).

Definition get_zones : M st (list loc) :=
  _ <- _fetch_zones ;;
  self_get zones.

Definition _update_system_state : M st unit :=
  h <- self_get host ;;
  resp <- in_world (Zone.send srv (Request GET (h +:+ "/" +:+ SYSTEM_STATE_URL api) None)) ;;
  request <- of_result (response_json resp) ;;
  v <- of_result (py_getitem request "system_state") ;;
  self_set (set_state_field v).

Definition get_system_state : M st value :=
  _update_system_state ;;
  s <- self_get state ;;
  match s with
  | Some v => ret v
  | None => raise (AttributeError "state")
  end.

Definition set_system_state (state : bool) : M st unit :=
  h <- self_get host ;;
  request <- in_world (Zone.send srv
               (Request PUT (h +:+ "/" +:+ SYSTEM_STATE_URL api)
                  (Some (VDict [("system_state", VBool state)]%string)))) ;;
  if negb (status_code request =? 200)
  then raise (SetSystemStateFailed state)
  else _update_system_state.

Definition get_zone_by_id (zone_id : Z) : M st (option loc) :=
  zs <- self_get zones ;;
  w <- gets snd ;;
  of_result (first_with_id (Zone.heap w) zone_id zs).

Definition update_zone_state (zone_id : Z) (state : bool) : M st unit :=
  zone <- get_zone_by_id zone_id ;;
  match zone with
  | None => raise (ZoneNotFound zone_id)
  | Some zone =>
      (if state then in_world (Zone.turn_on api srv zone)
       else in_world (Zone.turn_off api srv zone)) ;;
      _ <- _fetch_zones ;;
      ret tt
  end.

Definition add_zone (zone : loc) : M st unit :=
  z <- in_world (Zone.load zone) ;;
  let zone_to_add :=
    VDict [("name", Zone.name z); ("gpio", Zone.gpio z);
           ("time", Zone.time z); ("enabled", Zone.enabled z);
           ("auto_off", Zone.auto_off z)]%string in
  h <- self_get host ;;
  request <- in_world (Zone.send srv
               (Request POST (h +:+ "/" +:+ ZONE_URL api) (Some zone_to_add))) ;;
  if negb (status_code request =? 200)
  then raise (AddZoneFailed (Zone.repr z))
  else zs <- get_zones ;; self_set (set_zones_field zs).

Definition delete_zone (zone_id : Z) : M st unit :=
  h <- self_get host ;;
  request <- in_world (Zone.send srv
               (Request DELETE (h +:+ "/" +:+ ZONE_URL api)
                  (Some (VDict [("id", VInt zone_id)]%string)))) ;;
  if negb (status_code request =? 200)
  then raise (DeleteZoneFailed zone_id)
  else ret tt.

Definition update_zone (zone : loc) : M st unit :=
  z <- in_world (Zone.load zone) ;;
  zone_to_update <- get_zone_by_id (Zone.id z) ;;
  match zone_to_update with
  | None => raise (ZoneNotFound (Zone.id z))
  | Some zone_to_update =>
      in_world (Zone.call_update api srv zone [zone_to_update]) ;;
      zs <- get_zones ;;
      self_set (set_zones_field zs)
  end.

Definition update_zone_order (zone_order : list Z) : M st unit :=
  h <- self_get host ;;
  request <- in_world (Zone.send srv
               (Request PUT (h +:+ "/" +:+ ZONE_ORDER_URL api)
                  (Some (VDict [("order", VList (map VInt zone_order))]%string)))) ;;
  if negb (status_code request =? 200)
  then raise (UpdateZoneOrderFailed zone_order)
  else zs <- get_zones ;; self_set (set_zones_field zs).

Definition __post_init__ : M st unit :=
  zs <- get_zones ;; self_set (set_zones_field zs) ;;
  v <- get_system_state ;; self_set (set_system_state_field v).

(** [System(zones, system_state, host)]: the generated [__init__] assigns
    the fields and calls [__post_init__]; the object exists for the
    caller only if that returns. *)
Definition __init__ (zones : list loc) (system_state : bool) (host : string)
  : M Zone.world t :=
  fun w =>
    match __post_init__ (mk zones (VBool system_state) host None, w) with
    | (Ok _, (self, w')) => (Ok self, w')
    | (Raise e, (_, w')) => (Raise e, w')
    end.

(** [System(host=...)], the other fields from their [default_factory]. *)
Definition for_host (host : string) : M Zone.world t :=
  __init__ [] false host.

End Methods.

End System.

(** ** Callers and fixtures *)

(** A caller of the two state accessors of [System]. *)
Inductive state_call : Type :=
| GetSystemState
| SetSystemState (state : bool).

(** A caller of any public method of [System]. *)
Inductive system_call : Type :=
| CallGetZones
| CallGetSystemState
| CallSetSystemState (state : bool)
| CallUpdateZoneState (zone_id : Z) (state : bool)
| CallGetZoneById (zone_id : Z)
| CallAddZone (zone : loc)
| CallDeleteZone (zone_id : Z)
| CallUpdateZone (zone : loc)
| CallUpdateZoneOrder (zone_order : list Z).

(** The methods of [Zone] that assign one field and end in
    [self.update_other(self)]. *)
Inductive setter : Type :=
| Enable
| Disable
| SetTime (time : Z)
| SetGpio (gpio : Z)
| SetName (name : string)
| SetAutoOff (auto_off : bool)
| SetSystemOrder (system_order : Z).

(** The assignment a setter starts with. *)
Definition assign (m : setter) : Zone.t -> Zone.t :=
  match m with
  | Enable => Zone.set_enabled_field (VBool true)
  | Disable => Zone.set_enabled_field (VBool false)
  | SetTime time => Zone.set_time_field (VInt time)
  | SetGpio gpio => Zone.set_gpio_field (VInt gpio)
  | SetName name => Zone.set_name_field (VStr name)
  | SetAutoOff auto_off => Zone.set_auto_off_field (VBool auto_off)
  | SetSystemOrder system_order => Zone.set_system_order_field (VInt system_order)
  end.

(** A push of [Zone] fields to the server: [update_other] itself, or a
    setter. *)
Inductive push : Type :=
| UpdateOther (other : loc)
| Setter (m : setter).

Section Callers.
Variable api : API.
Variable srv : server.

Definition run_state_call (c : state_call) : M System.st unit :=
  match c with
  | GetSystemState => _ <- System.get_system_state api srv ;; ret tt
  | SetSystemState b => System.set_system_state api srv b
  end.

(** The calls one after the other, the caller going on after an exception. *)
Fixpoint run_state_calls (cs : list state_call) (s : System.st) : System.st :=
  match cs with
  | [] => s
  | c :: cs' => run_state_calls cs' (snd (run_state_call c s))
  end.

Definition run_system_call (c : system_call) : M System.st unit :=
  match c with
  | CallGetZones => _ <- System.get_zones api srv ;; ret tt
  | CallGetSystemState => _ <- System.get_system_state api srv ;; ret tt
  | CallSetSystemState state => System.set_system_state api srv state
  | CallUpdateZoneState zone_id state => System.update_zone_state api srv zone_id state
  | CallGetZoneById zone_id => _ <- System.get_zone_by_id zone_id ;; ret tt
  | CallAddZone zone => System.add_zone api srv zone
  | CallDeleteZone zone_id => System.delete_zone api srv zone_id
  | CallUpdateZone zone => System.update_zone api srv zone
  | CallUpdateZoneOrder zone_order => System.update_zone_order api srv zone_order
  end.

Fixpoint run_system_calls (cs : list system_call) (s : System.st) : System.st :=
  match cs with
  | [] => s
  | c :: cs' => run_system_calls cs' (snd (run_system_call c s))
  end.

Definition run_setter (self : loc) (m : setter) : M Zone.world unit :=
  match m with
  | Enable => Zone.enable api srv self
  | Disable => Zone.disable api srv self
  | SetTime time => Zone.set_time api srv self time
  | SetGpio gpio => Zone.set_gpio api srv self gpio
  | SetName name => Zone.set_name api srv self name
  | SetAutoOff auto_off => Zone.set_auto_off api srv self auto_off
  | SetSystemOrder system_order => Zone.set_system_order api srv self system_order
  end.

Definition run_push (self : loc) (p : push) : M Zone.world unit :=
  match p with
  | UpdateOther other => Zone.update_other api srv self other
  | Setter m => run_setter self m
  end.
End Callers.

(** What [update_other] leaves in [self]: the six configuration fields of
    [other], and [self]'s own [state] and [id]. *)
Definition merged (z o : Zone.t) : Zone.t :=
  Zone.mk (Zone.name o) (Zone.gpio o) (Zone.time o) (Zone.enabled o)
          (Zone.auto_off o) (Zone.system_order o) (Zone.state z) (Zone.id z).

(** The body of the zone-update PUT for a zone. *)
Definition zone_json (z : Zone.t) : value :=
  VDict [("id", VInt (Zone.id z)); ("Name", Zone.name z); ("GPIO", Zone.gpio z);
         ("Time", Zone.time z); ("Enabled", Zone.enabled z);
         ("Autooff", Zone.auto_off z); ("SystemOrder", Zone.system_order z)]%string.

(** Two [System] objects with the same dataclass fields. *)
Definition same_fields (a b : System.t) : Prop :=
  System.zones a = System.zones b
  /\ System.system_state a = System.system_state b
  /\ System.host a = System.host b.

(** The [Zone] a zone record describes, in the words of the specification:
    each field equal to the decoded JSON value under the key of its name. *)
Definition zone_of_record (record : value) : option Zone.t :=
  match record with
  | VDict d =>
      match dict_get d "name", dict_get d "gpio", dict_get d "time",
            dict_get d "enabled", dict_get d "auto_off",
            dict_get d "system_order", dict_get d "state", dict_get d "id" with
      | Some n, Some g, Some t, Some e, Some a, Some o, Some s, Some (VInt i) =>
          Some (Zone.mk n g t e a o s i)
      | _, _, _, _, _, _, _, _ => None
      end
  | _ => None
  end.

(** The requests of the two classes. *)
Section Requests.
Variable api : API.

Definition get_zone_info (host : string) : request :=
  Request GET (host +:+ "/" +:+ ZONE_INFO_URL api) None.
Definition get_system_state_request (host : string) : request :=
  Request GET (host +:+ "/" +:+ SYSTEM_STATE_URL api) None.
Definition put_system_state (host : string) (state : bool) : request :=
  Request PUT (host +:+ "/" +:+ SYSTEM_STATE_URL api)
    (Some (VDict [("system_state", VBool state)]%string)).
Definition put_zone_state (host : string) (id : Z) (state : value) : request :=
  Request PUT (host +:+ "/" +:+ ZONE_URL api)
    (Some (VDict [("id", VInt id); ("state", state)]%string)).
Definition post_zone (host : string) (z : Zone.t) : request :=
  Request POST (host +:+ "/" +:+ ZONE_URL api)
    (Some (VDict [("name", Zone.name z); ("gpio", Zone.gpio z);
                  ("time", Zone.time z); ("enabled", Zone.enabled z);
                  ("auto_off", Zone.auto_off z)]%string)).
Definition delete_zone_request (host : string) (zone_id : Z) : request :=
  Request DELETE (host +:+ "/" +:+ ZONE_URL api)
    (Some (VDict [("id", VInt zone_id)]%string)).
Definition put_zone_update (host : string) (z : Zone.t) : request :=
  Request PUT (host +:+ "/" +:+ ZONE_UPDATE_URL api) (Some (zone_json z)).
Definition put_zone_order (host : string) (zone_order : list Z) : request :=
  Request PUT (host +:+ "/" +:+ ZONE_ORDER_URL api)
    (Some (VDict [("order", VList (map VInt zone_order))]%string)).
End Requests.

(** Concrete inputs. The paths stand for the constants of [sqlsprinkler.API]. *)
Module Demo.

Definition api : API :=
  mkAPI "zone/info" "system/state" "zone" "zone/update" "zone/order".

(** The zone record of the specification's example, and the [Zone] it
    describes. *)
Definition front_record : value :=
  VDict [("id", VInt 1); ("name", VStr "Front"); ("gpio", VInt 4);
         ("time", VInt 300); ("enabled", VBool true);
         ("auto_off", VBool false); ("system_order", VInt 0);
         ("state", VBool false)]%string.

Definition front : Zone.t :=
  Zone.mk (VStr "Front") (VInt 4) (VInt 300) (VBool true) (VBool false)
          (VInt 0) (VBool false) 1.

Definition back : Zone.t :=
  Zone.mk (VStr "Back") (VInt 7) (VInt 120) (VBool false) (VBool true)
          (VInt 1) (VBool true) 1.

(** The host of the example: its zone-info endpoint returns the one record,
    its system-state endpoint [{"system_state": false}], and every
    mutating request succeeds. *)
Definition example_host : server :=
  fun _ r =>
    match method r with
    | GET =>
        if String.eqb (url r) "http://x/zone/info"
        then Answer (Response 200 (Some (VList [front_record])))
        else if String.eqb (url r) "http://x/system/state"
        then Answer (Response 200 (Some (VDict [("system_state", VBool false)]%string)))
        else Answer (Response 404 None)
    | _ => Answer (Response 200 None)
    end.

(** A host that answers every request with the status [code]. *)
Definition refusing (code : Z) : server :=
  fun _ _ => Answer (Response code None).

(** The last state a system-state PUT of the history asked for. *)
Fixpoint last_put (history : list request) (current : bool) : bool :=
  match history with
  | [] => current
  | Request PUT _ (Some (VDict [(_, VBool b)])) :: history' => last_put history' b
  | _ :: history' => last_put history' current
  end.

(** A host that echoes the system state it was last sent. *)
Definition echoing : server :=
  fun history r =>
    match method r with
    | GET => Answer (Response 200
               (Some (VDict [("system_state", VBool (last_put history false))]%string)))
    | _ => Answer (Response 200 None)
    end.

(** A host on which the zone 1 has been renamed and turned on by someone
    else. *)
Definition lawn_record : value :=
  VDict [("id", VInt 1); ("name", VStr "Lawn"); ("gpio", VInt 4);
         ("time", VInt 300); ("enabled", VBool true);
         ("auto_off", VBool false); ("system_order", VInt 0);
         ("state", VBool true)]%string.

Definition lawn : Zone.t :=
  Zone.mk (VStr "Lawn") (VInt 4) (VInt 300) (VBool true) (VBool false)
          (VInt 0) (VBool true) 1.

Definition renaming : server :=
  fun _ r =>
    match method r with
    | GET => Answer (Response 200 (Some (VList [lawn_record])))
    | _ => Answer (Response 200 None)
    end.

(** The records of the zones created by the POSTs of the history, numbered
    from [next_id]. *)
Fixpoint posted (history : list request) (next_id : Z) : list value :=
  match history with
  | [] => []
  | Request POST _ (Some (VDict d)) :: history' =>
      VDict (("id", VInt next_id) :: d
             ++ [("system_order", VInt 0); ("state", VBool false)])%string
      :: posted history' (next_id + 1)
  | _ :: history' => posted history' next_id
  end.

(** A host that creates the zones it is sent and lists them. *)
Definition registering : server :=
  fun history r =>
    match method r with
    | GET => Answer (Response 200 (Some (VList (posted history 1))))
    | _ => Answer (Response 200 None)
    end.

(** The zone the host [registering] lists once it was sent [back]. *)
Definition back_registered : Zone.t :=
  Zone.mk (VStr "Back") (VInt 7) (VInt 120) (VBool false) (VBool true)
          (VInt 0) (VBool false) 1.

(** No object yet. *)
Definition empty_world : Zone.world := Zone.World ∅ "none" [].

(** The zone [front] at reference 1 and the zone [back] at reference 2. *)
Definition two_zones : Zone.world :=
  Zone.World (<[2%positive := back]> {[ 1%positive := front ]}) "http://x" [].

(** A system for the example host that knows no zone, and one that holds
    the zone at reference 1, both as the constructor leaves them. *)
Definition bare_system : System.t :=
  System.mk [] (VBool false) "http://x" (Some (VBool false)).
Definition front_system : System.t :=
  System.mk [1%positive] (VBool false) "http://x" (Some (VBool false)).

End Demo.

(** ** Further callers and fixtures *)

(** The keys [Zone.update] reads from the response, in the order of its
    assignments, each with the field it assigns. *)
Definition refresh_fields : list (string * (value -> Zone.t -> Zone.t)) :=
  [("name", Zone.set_name_field); ("gpio", Zone.set_gpio_field);
   ("time", Zone.set_time_field); ("enabled", Zone.set_enabled_field);
   ("auto_off", Zone.set_auto_off_field);
   ("system_order", Zone.set_system_order_field);
   ("state", Zone.set_state_field)]%string.

(** Assigning from the dictionary [d] field after field, up to the first key
    that [d] lacks: the zone reached, and that key if there is one. *)
Fixpoint overwrite (fields : list (string * (value -> Zone.t -> Zone.t)))
    (d : list (string * value)) (z : Zone.t) : Zone.t * option string :=
  match fields with
  | [] => (z, None)
  | (key, set) :: fields' =>
      match dict_get d key with
      | Some v => overwrite fields' d (set v z)
      | None => (z, Some key)
      end
  end.


(** The zone after the assignments of the setters [ms], first to last. *)
Definition assign_all (ms : list setter) (z : Zone.t) : Zone.t :=
  fold_left (fun acc m => assign m acc) ms z.

Section MoreCallers.
Variable api : API.
Variable srv : server.

(** The GET of [Zone.update]: the zone-info path followed by the id in
    decimal. *)
Definition get_zone_record (host : string) (id : Z) : request :=
  Request GET (host +:+ "/" +:+ ZONE_INFO_URL api +:+ "/" +:+ pretty id) None.

(** Setters called one after the other on [self], the caller going on after
    an exception. *)
Fixpoint run_setters (self : loc) (ms : list setter) (w : Zone.world) : Zone.world :=
  match ms with
  | [] => w
  | m :: ms' => run_setters self ms' (snd (run_setter api srv self m w))
  end.

(** The zone-update PUTs those calls send, from a zone [z]. *)
Fixpoint setter_requests (host : string) (ms : list setter) (z : Zone.t)
  : list request :=
  match ms with
  | [] => []
  | m :: ms' =>
      put_zone_update api host (assign m z) :: setter_requests host ms' (assign m z)
  end.
End MoreCallers.

(** More concrete inputs. *)
Module Sample.

(** A host whose every answer is the single record of the zone [lawn]. *)
Definition describing : server :=
  fun _ _ => Answer (Response 200 (Some Demo.lawn_record)).

(** A record without the key [time]. *)
Definition short_record : value :=
  VDict [("name", VStr "Lawn"); ("gpio", VInt 9)]%string.

Definition truncating : server :=
  fun _ _ => Answer (Response 200 (Some short_record)).

(** A host that answers with a status and a body that is not JSON, and one
    that cannot be reached. *)
Definition garbling : server := fun _ _ => Answer (Response 200 None).
Definition unreachable : server := fun _ _ => ConnectionError.

(** A host that answers every request with the same JSON value. *)
Definition constant (v : value) : server :=
  fun _ _ => Answer (Response 200 (Some v)).

(** A host that creates and lists the zones it is sent and echoes the
    system state it was last sent. *)
Definition serving : server :=
  fun history r =>
    match method r with
    | GET =>
        if String.eqb (url r) "http://x/system/state"
        then Answer (Response 200
               (Some (VDict [("system_state",
                              VBool (Demo.last_put history false))]%string)))
        else Answer (Response 200 (Some (VList (Demo.posted history 1))))
    | _ => Answer (Response 200 None)
    end.


(** A third zone, with an id of its own, next to the two of
    [Demo.two_zones]. *)
Definition shed : Zone.t :=
  Zone.mk (VStr "Shed") (VInt 11) (VInt 60) (VBool true) (VBool false)
          (VInt 2) (VBool false) 5.

Definition three_zones : Zone.world :=
  Zone.World (<[3%positive := shed]> (Zone.heap Demo.two_zones)) "http://x" [].


(** A system whose list is [back], [front], [back]; both zones carry the
    id 1. *)
Definition crowded_system : System.t :=
  System.mk [2%positive; 1%positive; 2%positive] (VBool false) "http://x"
    (Some (VBool false)).

End Sample.

(** * Properties *)

(** ** How the primitives run *)

Ltac unfold_monad :=
  unfold System.self_get, System.self_set, System.in_world,
    bind, ret, raise, get, gets, modify, of_result.

Section Primitives.
Variable api : API.
Variable srv : server.

Lemma send_world (r : request) (w : Zone.world) :
  snd (Zone.send srv r w) = Zone.logged r w.
Proof. unfold Zone.send. by destruct (srv _ _). Qed.

Lemma send_answer (r : request) (w : Zone.world) (resp : response) :
  srv (Zone.log w) r = Answer resp ->
  Zone.send srv r w = (Ok resp, Zone.logged r w).
Proof. unfold Zone.send. by intros ->. Qed.

Lemma send_failure (r : request) (w : Zone.world) :
  srv (Zone.log w) r = ConnectionError ->
  Zone.send srv r w = (Raise RequestException, Zone.logged r w).
Proof. unfold Zone.send. by intros ->. Qed.

(** [_fetch_zones] assigns nothing: the [System] object and the [Zone]
    objects are as before, and one GET has gone out. *)
Lemma fetch_zones_state (s : System.st) :
  snd (System._fetch_zones api srv s)
  = (fst s, Zone.logged (get_zone_info api (System.host (fst s))) (snd s)).
Proof.
  destruct s as [sys w]. unfold System._fetch_zones. unfold_monad.
  unfold Zone.send, get_zone_info. simpl.
  destruct (srv _ _) as [resp|]; simpl; [|done].
  destruct (response_json resp) as [v|]; simpl; [|done].
  by destruct (py_iter v).
Qed.

(** [get_zones] returns the list the object already holds. *)
Lemma get_zones_result (s : System.st) (zs : list loc) :
  fst (System.get_zones api srv s) = Ok zs -> zs = System.zones (fst s).
Proof.
  unfold System.get_zones. unfold_monad.
  pose proof (fetch_zones_state s) as Hs.
  destruct (System._fetch_zones api srv s) as [[l|e] s']; simpl in *.
  - subst s'. simpl. congruence.
  - discriminate.
Qed.

Lemma get_zones_state (s : System.st) :
  snd (System.get_zones api srv s)
  = (fst s, Zone.logged (get_zone_info api (System.host (fst s))) (snd s)).
Proof.
  unfold System.get_zones. unfold_monad.
  pose proof (fetch_zones_state s) as Hs.
  by destruct (System._fetch_zones api srv s) as [[l|e] s']; simpl in *.
Qed.

(** Assigning to [self.zones] what [get_zones] returned changes nothing. *)
Lemma refresh_zones_state (s : System.st) :
  snd ((zs <- System.get_zones api srv ;;
        System.self_set (System.set_zones_field zs)) s)
  = (fst s, Zone.logged (get_zone_info api (System.host (fst s))) (snd s)).
Proof.
  unfold bind at 1.
  pose proof (get_zones_state s) as Hs.
  pose proof (get_zones_result s) as Hr.
  destruct (System.get_zones api srv s) as [[zs|e] s']; simpl in *; [|done].
  subst s'. rewrite (Hr zs eq_refl). unfold System.self_set, modify. simpl.
  by destruct s as [[] w].
Qed.

End Primitives.

(** ** Fetching the zones *)

(** C1 does not hold of the code. On a system that holds no zone, against a
    host whose zone-info endpoint returns the one record of the example,
    [get_zones] issues the GET and then returns the list the object already
    held, the empty one: the list [_fetch_zones] built is dropped. That
    dropped list holds one [Zone] whose [name] is the whole record and whose
    other fields are the defaults, which is not the zone the record
    describes. *)
Theorem get_zones_drops_fetched_list :
  System.get_zones Demo.api Demo.example_host (Demo.bare_system, Demo.empty_world)
  = (Ok [],
     (Demo.bare_system,
      Zone.logged (get_zone_info Demo.api "http://x") Demo.empty_world))
  /\ fst (System._fetch_zones Demo.api Demo.example_host
            (Demo.bare_system, Demo.empty_world))
     = Ok [Zone.positional Demo.front_record]
  /\ zone_of_record Demo.front_record = Some Demo.front
  /\ Zone.positional Demo.front_record <> Demo.front.
Proof. repeat split. discriminate. Qed.

(** C2 does not hold of the code. Constructing a [System] for the host of
    the example issues the two GETs and sets [system_state] to [False], but
    leaves [zones] empty: no [Zone] object exists afterwards. *)
Theorem for_host_example :
  System.for_host Demo.api Demo.example_host "http://x" Demo.empty_world
  = (Ok (System.mk [] (VBool false) "http://x" (Some (VBool false))),
     Zone.World ∅ "none"
       [get_zone_info Demo.api "http://x";
        get_system_state_request Demo.api "http://x"])
  /\ zone_of_record Demo.front_record = Some Demo.front.
Proof. split; reflexivity. Qed.

(** ** Deleting a zone *)

(** C8. [delete_zone(zone_id)] issues one DELETE whose body is
    [{"id": zone_id}]; whatever comes back, the [System] object, its [zones]
    list included, and the [Zone] objects are as before; a response whose
    status is not 200 raises the deletion failure, an [OperationError], and a
    200 returns normally. *)
Theorem delete_zone_keeps_zones (api : API) (srv : server) (zone_id : Z)
    (sys : System.t) (w : Zone.world) :
  let req := delete_zone_request api (System.host sys) zone_id in
  let out := System.delete_zone api srv zone_id (sys, w) in
  snd out = (sys, Zone.logged req w)
  /\ System.zones (fst (snd out)) = System.zones sys
  /\ (forall resp, srv (Zone.log w) req = Answer resp ->
        status_code resp <> 200 ->
        fst out = Raise (DeleteZoneFailed zone_id)
        /\ classify (DeleteZoneFailed zone_id) = OperationError)
  /\ (forall resp, srv (Zone.log w) req = Answer resp ->
        status_code resp = 200 -> fst out = Ok tt).
Proof.
  intros req out. subst req out.
  unfold delete_zone_request, System.delete_zone. unfold_monad.
  unfold Zone.send. simpl.
  destruct (srv _ _) as [resp|] eqn:Hsrv; simpl.
  - destruct (status_code resp =? 200) eqn:Hst; simpl.
    + apply Z.eqb_eq in Hst.
      split; [done|]. split; [done|]. split; [|done].
      intros resp' [= <-] Hne. done.
    + apply Z.eqb_neq in Hst.
      split; [done|]. split; [done|]. split; [done|].
      intros resp' [= <-] Heq. done.
  - split; [done|]. split; [done|]. split; intros resp' [=].
Qed.

Lemma delete_zone_keeps_zones_witness :
  fst (System.delete_zone Demo.api (Demo.refusing 500) 1
         (Demo.front_system, Demo.two_zones))
  = Raise (DeleteZoneFailed 1)
  /\ System.zones (fst (snd (System.delete_zone Demo.api (Demo.refusing 500) 1
                               (Demo.front_system, Demo.two_zones))))
     = [1%positive].
Proof.
  pose proof (delete_zone_keeps_zones Demo.api (Demo.refusing 500) 1
                Demo.front_system Demo.two_zones) as (_ & Hz & Hbad & _).
  split.
  - apply (Hbad (Response 500 None)); [reflexivity | discriminate].
  - exact Hz.
Defined.

(** ** The system state *)

Section SystemState.
Variable api : API.
Variable srv : server.

(** The fetch of the system state, when the server answers with an object
    that has the key [system_state]: the value lands in the attribute
    [state]. *)
Lemma update_system_state_answer (sys : System.t) (w : Zone.world)
    (resp : response) (d : list (string * value)) (v : value) :
  srv (Zone.log w) (get_system_state_request api (System.host sys)) = Answer resp ->
  body resp = Some (VDict d) ->
  dict_get d "system_state" = Some v ->
  System._update_system_state api srv (sys, w)
  = (Ok tt, (System.set_state_field v sys,
             Zone.logged (get_system_state_request api (System.host sys)) w)).
Proof.
  unfold get_system_state_request, System._update_system_state.
  unfold_monad. unfold Zone.send, response_json. simpl.
  intros -> -> . simpl. by intros ->.
Qed.

(** The fetch never touches the field [system_state]. *)
Lemma update_system_state_keeps_field (s : System.st) :
  System.system_state (fst (snd (System._update_system_state api srv s)))
  = System.system_state (fst s).
Proof.
  destruct s as [sys w]. unfold System._update_system_state.
  unfold_monad. unfold Zone.send. simpl.
  destruct (srv _ _) as [resp|]; simpl; [|done].
  destruct (response_json resp) as [v|]; simpl; [|done].
  by destruct (py_getitem v _).
Qed.

(** It leaves the [Zone] objects alone and logs its one GET. *)
Lemma update_system_state_world (s : System.st) :
  snd (snd (System._update_system_state api srv s))
  = Zone.logged (get_system_state_request api (System.host (fst s))) (snd s).
Proof.
  destruct s as [sys w]. unfold System._update_system_state.
  unfold_monad. unfold Zone.send. simpl.
  destruct (srv _ _) as [resp|]; simpl; [|done].
  destruct (response_json resp) as [v|]; simpl; [|done].
  by destruct (py_getitem v _).
Qed.

Lemma get_system_state_keeps_field (s : System.st) :
  System.system_state (fst (snd (System.get_system_state api srv s)))
  = System.system_state (fst s).
Proof.
  unfold System.get_system_state. unfold bind at 1.
  pose proof (update_system_state_keeps_field s) as H.
  destruct (System._update_system_state api srv s) as [[[]|e] s']; simpl in *;
    [|done].
  unfold_monad. simpl. by destruct (System.state s'.1).
Qed.

Lemma set_system_state_keeps_field (b : bool) (s : System.st) :
  System.system_state (fst (snd (System.set_system_state api srv b s)))
  = System.system_state (fst s).
Proof.
  destruct s as [sys w]. unfold System.set_system_state.
  unfold_monad. unfold Zone.send. simpl.
  destruct (srv _ _) as [resp|]; simpl; [|done].
  destruct (negb _); simpl; [done|].
  apply (update_system_state_keeps_field (sys, _)).
Qed.

(** What [get_system_state] returns is the attribute [state]. *)
Lemma get_system_state_reads_state (s : System.st) (v : value) :
  fst (System.get_system_state api srv s) = Ok v ->
  System.state (fst (snd (System.get_system_state api srv s))) = Some v.
Proof.
  unfold System.get_system_state, bind.
  destruct (System._update_system_state api srv s) as [[[]|e] s']; simpl;
    [|done].
  unfold System.self_get, gets, ret, raise.
  destruct (System.state s'.1) eqn:Hstate; simpl; congruence.
Qed.

Lemma get_system_state_answer (sys : System.t) (w : Zone.world)
    (resp : response) (d : list (string * value)) (v : value) :
  srv (Zone.log w) (get_system_state_request api (System.host sys)) = Answer resp ->
  body resp = Some (VDict d) ->
  dict_get d "system_state" = Some v ->
  System.get_system_state api srv (sys, w)
  = (Ok v, (System.set_state_field v sys,
            Zone.logged (get_system_state_request api (System.host sys)) w)).
Proof.
  intros Hsrv Hbody Hkey. unfold System.get_system_state. unfold bind at 1.
  by rewrite (update_system_state_answer _ _ _ _ _ Hsrv Hbody Hkey).
Qed.

End SystemState.

(** C5. [set_system_state(b)] first PUTs [{"system_state": b}]. A response
    whose status is not 200 raises the failure that names [b], an
    [OperationError], and nothing is assigned. After a 200 the state is
    fetched again, and the attribute [state] takes the value the server sent,
    not [b]; a [get_system_state()] that follows fetches once more and returns
    the value the server sends then. *)
Theorem set_system_state_refetches (api : API) (srv : server) (b : bool)
    (sys : System.t) (w : Zone.world) :
  let put := put_system_state api (System.host sys) b in
  let fetch := get_system_state_request api (System.host sys) in
  let out := System.set_system_state api srv b (sys, w) in
  (exists rest, Zone.log (snd (snd out)) = Zone.log w ++ put :: rest)
  /\ (forall resp, srv (Zone.log w) put = Answer resp ->
        status_code resp <> 200 ->
        out = (Raise (SetSystemStateFailed b), (sys, Zone.logged put w))
        /\ classify (SetSystemStateFailed b) = OperationError)
  /\ (forall resp resp1 d1 v1,
        srv (Zone.log w) put = Answer resp ->
        status_code resp = 200 ->
        srv (Zone.log w ++ [put]) fetch = Answer resp1 ->
        body resp1 = Some (VDict d1) ->
        dict_get d1 "system_state" = Some v1 ->
        out = (Ok tt, (System.set_state_field v1 sys,
                       Zone.logged fetch (Zone.logged put w)))
        /\ (forall resp2 d2 v2,
              srv ((Zone.log w ++ [put]) ++ [fetch]) fetch = Answer resp2 ->
              body resp2 = Some (VDict d2) ->
              dict_get d2 "system_state" = Some v2 ->
              fst (System.get_system_state api srv (snd out)) = Ok v2)).
Proof.
  intros put fetch out. subst put fetch out.
  unfold System.set_system_state. unfold_monad. unfold Zone.send.
  unfold put_system_state. simpl.
  destruct (srv (Zone.log w) _) as [resp|] eqn:Hput; simpl.
  - destruct (status_code resp =? 200) eqn:Hst; simpl.
    + apply Z.eqb_eq in Hst. split; [|split].
      * rewrite update_system_state_world. simpl.
        eexists. rewrite <- app_assoc. reflexivity.
      * intros resp' [= <-] Hne. done.
      * intros resp' resp1 d1 v1 [= <-] _ Hget Hbody Hkey.
        pose proof (update_system_state_answer api srv sys
                      (Zone.logged (put_system_state api (System.host sys) b) w)
                      resp1 d1 v1 Hget Hbody Hkey) as Hrun.
        unfold put_system_state in Hrun. rewrite Hrun. split; [done|].
        intros resp2 d2 v2 Hget2 Hbody2 Hkey2. simpl.
        exact (f_equal fst
                 (get_system_state_answer api srv
                    (System.set_state_field v1 sys)
                    (Zone.logged (get_system_state_request api (System.host sys))
                       (Zone.logged (put_system_state api (System.host sys) b) w))
                    resp2 d2 v2 Hget2 Hbody2 Hkey2)).
    + apply Z.eqb_neq in Hst. split; [|split].
      * exists []. done.
      * intros resp' [= <-] _. done.
      * intros resp' resp1 d1 v1 [= <-] Heq. done.
  - split; [|split].
    + exists []. done.
    + intros resp' [=].
    + intros resp' resp1 d1 v1 [=].
Qed.

Lemma set_system_state_refetches_witness :
  System.set_system_state Demo.api Demo.echoing true
    (Demo.bare_system, Demo.empty_world)
  = (Ok tt, (System.set_state_field (VBool true) Demo.bare_system,
             Zone.logged (get_system_state_request Demo.api "http://x")
               (Zone.logged (put_system_state Demo.api "http://x" true)
                  Demo.empty_world)))
  /\ fst (System.get_system_state Demo.api Demo.echoing
            (snd (System.set_system_state Demo.api Demo.echoing true
                    (Demo.bare_system, Demo.empty_world))))
     = Ok (VBool true)
  /\ System.set_system_state Demo.api (Demo.refusing 500) true
       (Demo.bare_system, Demo.empty_world)
     = (Raise (SetSystemStateFailed true),
        (Demo.bare_system,
         Zone.logged (put_system_state Demo.api "http://x" true) Demo.empty_world)).
Proof.
  destruct (set_system_state_refetches Demo.api Demo.echoing true
              Demo.bare_system Demo.empty_world) as (_ & _ & Hok).
  destruct (Hok (Response 200 None)
              (Response 200 (Some (VDict [("system_state", VBool true)]%string)))
              [("system_state", VBool true)]%string (VBool true)
              eq_refl eq_refl eq_refl eq_refl eq_refl) as [Hrun Hnext].
  destruct (set_system_state_refetches Demo.api (Demo.refusing 500) true
              Demo.bare_system Demo.empty_world) as (_ & Hbad & _).
  split; [exact Hrun|]. split.
  - exact (Hnext (Response 200 (Some (VDict [("system_state", VBool true)]%string)))
             [("system_state", VBool true)]%string (VBool true)
             eq_refl eq_refl eq_refl).
  - apply (Hbad (Response 500 None)); [reflexivity | discriminate].
Defined.

(** [set_system_state] when the PUT is answered 200 and the fetch that
    follows reads a value: the value lands in the attribute [state]. *)
Lemma set_system_state_accepted (api : API) (srv : server) (b : bool)
    (sys : System.t) (w : Zone.world) (resp resp1 : response)
    (d : list (string * value)) (v : value) :
  srv (Zone.log w) (put_system_state api (System.host sys) b) = Answer resp ->
  status_code resp = 200 ->
  srv (Zone.log w ++ [put_system_state api (System.host sys) b])
    (get_system_state_request api (System.host sys)) = Answer resp1 ->
  body resp1 = Some (VDict d) ->
  dict_get d "system_state" = Some v ->
  System.set_system_state api srv b (sys, w)
  = (Ok tt,
     (System.set_state_field v sys,
      Zone.logged (get_system_state_request api (System.host sys))
        (Zone.logged (put_system_state api (System.host sys) b) w))).
Proof.
  intros Hput Hst%Z.eqb_eq Hget Hbody Hkey.
  pose proof (update_system_state_answer api srv sys
                (Zone.logged (put_system_state api (System.host sys) b) w)
                resp1 d v Hget Hbody Hkey) as Hrun.
  revert Hput Hrun. unfold System.set_system_state, put_system_state.
  unfold_monad. unfold Zone.send. simpl. intros -> Hrun. simpl.
  by rewrite Hst.
Qed.

(** C10. The two accessors work on the attribute [state], not on the field
    [system_state]. A [get_system_state] that reads a value from the server
    writes it to [state] and returns it; a [set_system_state] that is
    accepted writes the value fetched afterwards to [state]; both leave the
    field [system_state] with the value it had, also when that value differs
    from the one written. What [get_system_state] returns is always the
    attribute [state]. No sequence of [get_system_state] and
    [set_system_state] calls, failed ones included, changes the field
    [system_state]: it holds what [__post_init__] assigned, which was the
    value of [state] at that moment. *)
Theorem system_state_field_written_once (api : API) (srv : server) :
  (forall (cs : list state_call) (s : System.st),
      System.system_state (fst (run_state_calls api srv cs s))
      = System.system_state (fst s))
  /\ (forall (s : System.st) (v : value),
        fst (System.get_system_state api srv s) = Ok v ->
        System.state (fst (snd (System.get_system_state api srv s))) = Some v)
  /\ (forall zones (system_state : bool) host w self w',
        System.__init__ api srv zones system_state host w = (Ok self, w') ->
        System.state self = Some (System.system_state self))
  /\ (forall (sys : System.t) (w : Zone.world) (resp : response)
             (d : list (string * value)) (v : value),
        srv (Zone.log w) (get_system_state_request api (System.host sys))
        = Answer resp ->
        body resp = Some (VDict d) ->
        dict_get d "system_state" = Some v ->
        System.get_system_state api srv (sys, w)
        = (Ok v,
           (System.mk (System.zones sys) (System.system_state sys)
              (System.host sys) (Some v),
            Zone.logged (get_system_state_request api (System.host sys)) w)))
  /\ (forall (b : bool) (sys : System.t) (w : Zone.world)
             (resp resp1 : response) (d : list (string * value)) (v : value),
        srv (Zone.log w) (put_system_state api (System.host sys) b) = Answer resp ->
        status_code resp = 200 ->
        srv (Zone.log w ++ [put_system_state api (System.host sys) b])
          (get_system_state_request api (System.host sys)) = Answer resp1 ->
        body resp1 = Some (VDict d) ->
        dict_get d "system_state" = Some v ->
        System.set_system_state api srv b (sys, w)
        = (Ok tt,
           (System.mk (System.zones sys) (System.system_state sys)
              (System.host sys) (Some v),
            Zone.logged (get_system_state_request api (System.host sys))
              (Zone.logged (put_system_state api (System.host sys) b) w)))).
Proof.
  split; [|split; [|split; [|split]]].
  - induction cs as [|c cs IH]; intros s; simpl; [done|].
    rewrite IH. destruct c as [|b]; simpl.
    + unfold bind.
      pose proof (get_system_state_keeps_field api srv s) as H.
      by destruct (System.get_system_state api srv s) as [[v|e] s'].
    + apply set_system_state_keeps_field.
  - apply get_system_state_reads_state.
  - intros zones system_state host w self w'.
    unfold System.__init__, System.__post_init__.
    set (s0 := (System.mk zones (VBool system_state) host None, w)).
    unfold bind at 1.
    destruct (System.get_zones api srv s0) as [[zs|e] s1]; [|by destruct s1].
    unfold bind at 1. unfold System.self_set at 1, modify at 1.
    unfold bind at 1.
    pose proof (get_system_state_reads_state api srv
                  (System.set_zones_field zs s1.1, s1.2)) as Hread.
    destruct (System.get_system_state api srv _) as [[v|e] s2];
      [|by destruct s2].
    specialize (Hread v eq_refl). simpl in Hread.
    unfold System.self_set, modify. simpl. intros [= <- <-]. simpl. done.
  - intros sys w resp d v Hsrv Hbody Hkey.
    exact (get_system_state_answer api srv sys w resp d v Hsrv Hbody Hkey).
  - intros b sys w resp resp1 d v Hput Hst Hget Hbody Hkey.
    exact (set_system_state_accepted api srv b sys w resp resp1 d v
             Hput Hst Hget Hbody Hkey).
Qed.

Lemma system_state_field_written_once_witness :
  fst (System.for_host Demo.api Demo.echoing "http://x" Demo.empty_world)
  = Ok Demo.bare_system
  /\ System.state Demo.bare_system
     = Some (System.system_state Demo.bare_system)
  /\ System.state
       (fst (snd (System.get_system_state Demo.api Demo.echoing
                    (Demo.bare_system,
                     Zone.logged (put_system_state Demo.api "http://x" true)
                       Demo.empty_world))))
     = Some (VBool true)
  /\ System.system_state
       (fst (run_state_calls Demo.api Demo.echoing
               [SetSystemState true; GetSystemState]
               (Demo.bare_system, Demo.empty_world)))
     = VBool false
  /\ System.get_system_state Demo.api Demo.echoing
       (Demo.bare_system,
        Zone.logged (put_system_state Demo.api "http://x" true) Demo.empty_world)
     = (Ok (VBool true),
        (System.mk [] (VBool false) "http://x" (Some (VBool true)),
         Zone.logged (get_system_state_request Demo.api "http://x")
           (Zone.logged (put_system_state Demo.api "http://x" true)
              Demo.empty_world)))
  /\ System.set_system_state Demo.api Demo.echoing true
       (Demo.bare_system, Demo.empty_world)
     = (Ok tt,
        (System.mk [] (VBool false) "http://x" (Some (VBool true)),
         Zone.logged (get_system_state_request Demo.api "http://x")
           (Zone.logged (put_system_state Demo.api "http://x" true)
              Demo.empty_world))).
Proof.
  destruct (system_state_field_written_once Demo.api Demo.echoing)
    as (Hkeep & Hread & Hinit & Hget & Hset).
  split; [reflexivity|]. split; [|split; [|split; [|split]]].
  - exact (Hinit [] false "http://x"%string Demo.empty_world _ _ eq_refl).
  - exact (Hread (Demo.bare_system,
                  Zone.logged (put_system_state Demo.api "http://x" true)
                    Demo.empty_world)
             (VBool true) eq_refl).
  - exact (Hkeep [SetSystemState true; GetSystemState]
             (Demo.bare_system, Demo.empty_world)).
  - exact (Hget Demo.bare_system
             (Zone.logged (put_system_state Demo.api "http://x" true)
                Demo.empty_world)
             (Response 200 (Some (VDict [("system_state", VBool true)]%string)))
             _ (VBool true) eq_refl eq_refl eq_refl).
  - exact (Hset true Demo.bare_system Demo.empty_world (Response 200 None)
             (Response 200 (Some (VDict [("system_state", VBool true)]%string)))
             _ (VBool true) eq_refl eq_refl eq_refl eq_refl eq_refl).
Defined.

(** ** Pushing a zone to the server *)

Section Push.
Variable api : API.
Variable srv : server.

Lemma load_allocated (self : loc) (w : Zone.world) (z : Zone.t) :
  Zone.heap w !! self = Some z -> Zone.load self w = (Ok z, w).
Proof. unfold Zone.load. by intros ->. Qed.

Lemma setattr_allocated (self : loc) (f : Zone.t -> Zone.t) (w : Zone.world)
    (z : Zone.t) :
  Zone.heap w !! self = Some z ->
  Zone.setattr self f w
  = (Ok tt, Zone.World (<[self := f z]> (Zone.heap w)) (Zone.host w) (Zone.log w)).
Proof. unfold Zone.setattr, Zone.load, bind, modify. by intros ->. Qed.

(** The whole effect of [update_other]: [self] becomes [merged], one PUT
    carries its record, and only the status of the response decides between
    returning and raising. *)
Lemma update_other_run (self other : loc) (w : Zone.world) (z o : Zone.t) :
  Zone.heap w !! self = Some z ->
  Zone.heap w !! other = Some o ->
  Zone.update_other api srv self other w
  = (match srv (Zone.log w) (put_zone_update api (Zone.host w) (merged z o)) with
     | Answer resp =>
         if negb (status_code resp =? 200)
         then Raise (ZoneUpdateFailed (status_code resp) (zone_json (merged z o)))
         else Ok tt
     | ConnectionError => Raise RequestException
     end,
     Zone.World (<[self := merged z o]> (Zone.heap w)) (Zone.host w)
       (Zone.log w ++ [put_zone_update api (Zone.host w) (merged z o)])).
Proof.
  intros Hs Ho. unfold Zone.update_other, Zone.setattr, Zone.load.
  unfold bind, modify, gets, ret, raise. simpl.
  destruct (decide (self = other)) as [<-|Hne].
  - assert (o = z) as -> by congruence.
    repeat (first [rewrite Hs | rewrite lookup_insert_eq]; simpl).
    rewrite !insert_insert_eq.
    unfold Zone.send, put_zone_update, zone_json, merged, Zone.logged. simpl.
    by destruct (srv _ _) as [resp|]; [destruct (negb _)|].
  - repeat (first [rewrite Hs | rewrite Ho | rewrite lookup_insert_eq
                  |rewrite (lookup_insert_ne _ self other) by done];
            simpl).
    rewrite !insert_insert_eq.
    unfold Zone.send, put_zone_update, zone_json, merged, Zone.logged. simpl.
    by destruct (srv _ _) as [resp|]; [destruct (negb _)|].
Qed.

(** A setter is its assignment followed by [self.update_other(self)]. *)
Lemma run_setter_unfold (self : loc) (m : setter) :
  run_setter api srv self m
  = (Zone.setattr self (assign m) ;; Zone.update_other api srv self self).
Proof. by destruct m. Qed.

(** So [self] ends as the assignment left it, and the PUT carries that. *)
Lemma run_setter_run (self : loc) (m : setter) (w : Zone.world) (z : Zone.t) :
  Zone.heap w !! self = Some z ->
  run_setter api srv self m w
  = (match srv (Zone.log w) (put_zone_update api (Zone.host w) (assign m z)) with
     | Answer resp =>
         if negb (status_code resp =? 200)
         then Raise (ZoneUpdateFailed (status_code resp) (zone_json (assign m z)))
         else Ok tt
     | ConnectionError => Raise RequestException
     end,
     Zone.World (<[self := assign m z]> (Zone.heap w)) (Zone.host w)
       (Zone.log w ++ [put_zone_update api (Zone.host w) (assign m z)])).
Proof.
  intros Hs. rewrite run_setter_unfold. unfold bind at 1.
  rewrite (setattr_allocated self (assign m) w z Hs).
  erewrite update_other_run; simpl; [|apply lookup_insert_eq..].
  rewrite insert_insert_eq.
  assert (merged (assign m z) (assign m z) = assign m z) as -> by by destruct m.
  done.
Qed.

Lemma setter_run (self : loc) (m : setter) (w : Zone.world) (z : Zone.t) :
  Zone.heap w !! self = Some z ->
  Zone.heap (snd (run_setter api srv self m w)) !! self = Some (assign m z).
Proof.
  intros Hs. rewrite (run_setter_run self m w z Hs). apply lookup_insert_eq.
Qed.

End Push.

(** C9. [update_other(other)] leaves in [self] the six configuration fields
    of [other] next to [self]'s own [state] and [id], and touches no other
    object, whether the PUT succeeds or not. Every push ([update_other],
    [enable], [disable] and the five setters) leaves [self.id] and
    [self.state] as they were. *)
Theorem push_keeps_id_and_state (api : API) (srv : server) (self : loc)
    (w : Zone.world) (z : Zone.t) :
  Zone.heap w !! self = Some z ->
  (forall (other : loc) (o : Zone.t),
      Zone.heap w !! other = Some o ->
      let w' := snd (Zone.update_other api srv self other w) in
      Zone.heap w' !! self
      = Some (Zone.mk (Zone.name o) (Zone.gpio o) (Zone.time o) (Zone.enabled o)
                (Zone.auto_off o) (Zone.system_order o) (Zone.state z) (Zone.id z))
      /\ (forall l : loc, l <> self -> Zone.heap w' !! l = Zone.heap w !! l))
  /\ (forall p : push,
        (forall other, p = UpdateOther other -> is_Some (Zone.heap w !! other)) ->
        exists z' : Zone.t,
          Zone.heap (snd (run_push api srv self p w)) !! self = Some z'
          /\ Zone.id z' = Zone.id z /\ Zone.state z' = Zone.state z).
Proof.
  intros Hs. split.
  - intros other o Ho w'. subst w'.
    rewrite (update_other_run api srv self other w z o Hs Ho). simpl. split.
    + apply lookup_insert_eq.
    + intros l Hl. by apply lookup_insert_ne.
  - intros p Hp.
    destruct p as [other|m]; simpl.
    + destruct (Hp other eq_refl) as [o Ho].
      rewrite (update_other_run api srv self other w z o Hs Ho). simpl.
      eexists. split; [apply lookup_insert_eq|done].
    + rewrite (setter_run api srv self m w z Hs).
      eexists. split; [reflexivity|]. by destruct m.
Qed.

Lemma push_keeps_id_and_state_witness :
  Zone.heap (snd (Zone.update_other Demo.api Demo.example_host 1%positive
                    2%positive Demo.two_zones)) !! 1%positive
  = Some (Zone.mk (VStr "Back") (VInt 7) (VInt 120) (VBool false) (VBool true)
            (VInt 1) (VBool false) 1)
  /\ exists z' : Zone.t,
       Zone.heap (snd (run_push Demo.api (Demo.refusing 500) 1%positive
                         (Setter (SetTime 600)) Demo.two_zones)) !! 1%positive
       = Some z'
       /\ Zone.id z' = 1 /\ Zone.state z' = VBool false.
Proof.
  destruct (push_keeps_id_and_state Demo.api Demo.example_host 1%positive
              Demo.two_zones Demo.front eq_refl) as [Hcopy _].
  destruct (push_keeps_id_and_state Demo.api (Demo.refusing 500) 1%positive
              Demo.two_zones Demo.front eq_refl) as [_ Hpush].
  split.
  - exact (proj1 (Hcopy 2%positive Demo.back eq_refl)).
  - apply (Hpush (Setter (SetTime 600))). intros other [=].
Defined.

(** ** Responses that are not 200 *)

Section Refusals.
Variable api : API.
Variable srv : server.

(** [turn_on] and [turn_off] assign [state], send their PUT and look at
    nothing in the response. *)
Lemma turn_on_run (self : loc) (w : Zone.world) (z : Zone.t) :
  Zone.heap w !! self = Some z ->
  Zone.turn_on api srv self w
  = (match srv (Zone.log w) (put_zone_state api (Zone.host w) (Zone.id z) (VBool true)) with
     | Answer _ => Ok tt
     | ConnectionError => Raise RequestException
     end,
     Zone.World (<[self := Zone.set_state_field (VBool true) z]> (Zone.heap w))
       (Zone.host w)
       (Zone.log w ++ [put_zone_state api (Zone.host w) (Zone.id z) (VBool true)])).
Proof.
  intros Hs. unfold Zone.turn_on. unfold bind at 1.
  rewrite (setattr_allocated self _ w z Hs).
  unfold bind, gets, Zone.load, Zone.send, ret, put_zone_state, Zone.logged.
  simpl. rewrite lookup_insert_eq. simpl.
  by destruct (srv _ _).
Qed.

Lemma turn_off_run (self : loc) (w : Zone.world) (z : Zone.t) :
  Zone.heap w !! self = Some z ->
  Zone.turn_off api srv self w
  = (match srv (Zone.log w) (put_zone_state api (Zone.host w) (Zone.id z) (VBool false)) with
     | Answer _ => Ok tt
     | ConnectionError => Raise RequestException
     end,
     Zone.World (<[self := Zone.set_state_field (VBool false) z]> (Zone.heap w))
       (Zone.host w)
       (Zone.log w ++ [put_zone_state api (Zone.host w) (Zone.id z) (VBool false)])).
Proof.
  intros Hs. unfold Zone.turn_off. unfold bind at 1.
  rewrite (setattr_allocated self _ w z Hs).
  unfold bind, gets, Zone.load, Zone.send, ret, put_zone_state, Zone.logged.
  simpl. rewrite lookup_insert_eq. simpl.
  by destruct (srv _ _).
Qed.

Lemma set_system_state_refused (b : bool) (sys : System.t) (w : Zone.world)
    (resp : response) :
  srv (Zone.log w) (put_system_state api (System.host sys) b) = Answer resp ->
  status_code resp <> 200 ->
  System.set_system_state api srv b (sys, w)
  = (Raise (SetSystemStateFailed b),
     (sys, Zone.logged (put_system_state api (System.host sys) b) w)).
Proof.
  unfold put_system_state, System.set_system_state. unfold_monad.
  unfold Zone.send. simpl. intros -> Hst%Z.eqb_neq. simpl. by rewrite Hst.
Qed.

Lemma add_zone_refused (zone : loc) (z : Zone.t) (sys : System.t)
    (w : Zone.world) (resp : response) :
  Zone.heap w !! zone = Some z ->
  srv (Zone.log w) (post_zone api (System.host sys) z) = Answer resp ->
  status_code resp <> 200 ->
  System.add_zone api srv zone (sys, w)
  = (Raise (AddZoneFailed (Zone.repr z)),
     (sys, Zone.logged (post_zone api (System.host sys) z) w)).
Proof.
  unfold post_zone, System.add_zone. unfold_monad.
  unfold Zone.load, Zone.send. simpl.
  intros -> . simpl. intros -> Hst%Z.eqb_neq. simpl. by rewrite Hst.
Qed.

Lemma delete_zone_refused (zone_id : Z) (sys : System.t) (w : Zone.world)
    (resp : response) :
  srv (Zone.log w) (delete_zone_request api (System.host sys) zone_id) = Answer resp ->
  status_code resp <> 200 ->
  System.delete_zone api srv zone_id (sys, w)
  = (Raise (DeleteZoneFailed zone_id),
     (sys, Zone.logged (delete_zone_request api (System.host sys) zone_id) w)).
Proof.
  unfold delete_zone_request, System.delete_zone. unfold_monad.
  unfold Zone.send. simpl. intros -> Hst%Z.eqb_neq. simpl. by rewrite Hst.
Qed.

Lemma update_zone_order_refused (zone_order : list Z) (sys : System.t)
    (w : Zone.world) (resp : response) :
  srv (Zone.log w) (put_zone_order api (System.host sys) zone_order) = Answer resp ->
  status_code resp <> 200 ->
  System.update_zone_order api srv zone_order (sys, w)
  = (Raise (UpdateZoneOrderFailed zone_order),
     (sys, Zone.logged (put_zone_order api (System.host sys) zone_order) w)).
Proof.
  unfold put_zone_order, System.update_zone_order. unfold_monad.
  unfold Zone.send. simpl. intros -> Hst%Z.eqb_neq. simpl. by rewrite Hst.
Qed.

End Refusals.

(** C4, as stated, fails on the zone-update PUT. [set_time(600)] on the zone
    [front], whose [time] is 300, against a host that answers 500: the call
    raises the update failure, an [OperationError], and [time] is 600
    afterwards. *)
Lemma set_time_refused_changes_time :
  fst (Zone.set_time Demo.api (Demo.refusing 500) 1%positive 600 Demo.two_zones)
  = Raise (ZoneUpdateFailed 500
             (zone_json (Zone.set_time_field (VInt 600) Demo.front)))
  /\ classify (ZoneUpdateFailed 500
                 (zone_json (Zone.set_time_field (VInt 600) Demo.front)))
     = OperationError
  /\ Zone.time <$> Zone.heap Demo.two_zones !! 1%positive = Some (VInt 300)
  /\ Zone.time <$> Zone.heap (snd (Zone.set_time Demo.api (Demo.refusing 500)
                                     1%positive 600 Demo.two_zones)) !! 1%positive
     = Some (VInt 600)
  /\ Zone.heap (snd (Zone.set_time Demo.api (Demo.refusing 500)
                       1%positive 600 Demo.two_zones)) !! 1%positive
     <> Zone.heap Demo.two_zones !! 1%positive.
Proof. repeat split. discriminate. Qed.

(** C4, amended. A response whose status is not 200 raises an
    [OperationError] in [set_system_state], [add_zone], [delete_zone],
    [update_zone_order], [update_other] and the setters. The four [System]
    methods have assigned nothing by then: the [System] object and the [Zone]
    objects are as before. [update_other] and the setters assign before they
    send: [self] already holds the copied fields, or the new field, when the
    exception is raised. [turn_on] and [turn_off] assign [state], send, and
    return normally whatever the status. *)
Theorem refused_mutations (api : API) (srv : server) :
  (forall b sys w resp,
      srv (Zone.log w) (put_system_state api (System.host sys) b) = Answer resp ->
      status_code resp <> 200 ->
      System.set_system_state api srv b (sys, w)
      = (Raise (SetSystemStateFailed b),
         (sys, Zone.logged (put_system_state api (System.host sys) b) w))
      /\ classify (SetSystemStateFailed b) = OperationError)
  /\ (forall zone z sys w resp,
        Zone.heap w !! zone = Some z ->
        srv (Zone.log w) (post_zone api (System.host sys) z) = Answer resp ->
        status_code resp <> 200 ->
        System.add_zone api srv zone (sys, w)
        = (Raise (AddZoneFailed (Zone.repr z)),
           (sys, Zone.logged (post_zone api (System.host sys) z) w))
        /\ classify (AddZoneFailed (Zone.repr z)) = OperationError)
  /\ (forall zone_id sys w resp,
        srv (Zone.log w) (delete_zone_request api (System.host sys) zone_id)
        = Answer resp ->
        status_code resp <> 200 ->
        System.delete_zone api srv zone_id (sys, w)
        = (Raise (DeleteZoneFailed zone_id),
           (sys, Zone.logged (delete_zone_request api (System.host sys) zone_id) w))
        /\ classify (DeleteZoneFailed zone_id) = OperationError)
  /\ (forall zone_order sys w resp,
        srv (Zone.log w) (put_zone_order api (System.host sys) zone_order)
        = Answer resp ->
        status_code resp <> 200 ->
        System.update_zone_order api srv zone_order (sys, w)
        = (Raise (UpdateZoneOrderFailed zone_order),
           (sys, Zone.logged (put_zone_order api (System.host sys) zone_order) w))
        /\ classify (UpdateZoneOrderFailed zone_order) = OperationError)
  /\ (forall self other z o w resp,
        Zone.heap w !! self = Some z ->
        Zone.heap w !! other = Some o ->
        srv (Zone.log w) (put_zone_update api (Zone.host w) (merged z o))
        = Answer resp ->
        status_code resp <> 200 ->
        Zone.update_other api srv self other w
        = (Raise (ZoneUpdateFailed (status_code resp) (zone_json (merged z o))),
           Zone.World (<[self := merged z o]> (Zone.heap w)) (Zone.host w)
             (Zone.log w ++ [put_zone_update api (Zone.host w) (merged z o)]))
        /\ classify (ZoneUpdateFailed (status_code resp) (zone_json (merged z o)))
           = OperationError)
  /\ (forall self m z w resp,
        Zone.heap w !! self = Some z ->
        srv (Zone.log w) (put_zone_update api (Zone.host w) (assign m z))
        = Answer resp ->
        status_code resp <> 200 ->
        run_setter api srv self m w
        = (Raise (ZoneUpdateFailed (status_code resp) (zone_json (assign m z))),
           Zone.World (<[self := assign m z]> (Zone.heap w)) (Zone.host w)
             (Zone.log w ++ [put_zone_update api (Zone.host w) (assign m z)]))
        /\ classify (ZoneUpdateFailed (status_code resp) (zone_json (assign m z)))
           = OperationError)
  /\ (forall self z w resp (on : bool),
        Zone.heap w !! self = Some z ->
        srv (Zone.log w) (put_zone_state api (Zone.host w) (Zone.id z) (VBool on))
        = Answer resp ->
        (if on then Zone.turn_on api srv self w else Zone.turn_off api srv self w)
        = (Ok tt,
           Zone.World (<[self := Zone.set_state_field (VBool on) z]> (Zone.heap w))
             (Zone.host w)
             (Zone.log w
                ++ [put_zone_state api (Zone.host w) (Zone.id z) (VBool on)]))).
Proof.
  repeat apply conj.
  - intros b sys w resp Hsrv Hst. split; [|done].
    by apply (set_system_state_refused api srv b sys w resp).
  - intros zone z sys w resp Hz Hsrv Hst. split; [|done].
    by apply (add_zone_refused api srv zone z sys w resp).
  - intros zone_id sys w resp Hsrv Hst. split; [|done].
    by apply (delete_zone_refused api srv zone_id sys w resp).
  - intros zone_order sys w resp Hsrv Hst. split; [|done].
    by apply (update_zone_order_refused api srv zone_order sys w resp).
  - intros self other z o w resp Hs Ho Hsrv Hst%Z.eqb_neq. split; [|done].
    rewrite (update_other_run api srv self other w z o Hs Ho), Hsrv.
    by rewrite Hst.
  - intros self m z w resp Hs Hsrv Hst%Z.eqb_neq. split; [|done].
    rewrite (run_setter_run api srv self m w z Hs), Hsrv. by rewrite Hst.
  - intros self z w resp [] Hs Hsrv.
    + by rewrite (turn_on_run api srv self w z Hs), Hsrv.
    + by rewrite (turn_off_run api srv self w z Hs), Hsrv.
Qed.

Lemma refused_mutations_witness :
  System.set_system_state Demo.api (Demo.refusing 500) true
    (Demo.front_system, Demo.two_zones)
  = (Raise (SetSystemStateFailed true),
     (Demo.front_system,
      Zone.logged (put_system_state Demo.api "http://x" true) Demo.two_zones))
  /\ System.add_zone Demo.api (Demo.refusing 500) 2%positive
       (Demo.front_system, Demo.two_zones)
     = (Raise (AddZoneFailed (Zone.repr Demo.back)),
        (Demo.front_system,
         Zone.logged (post_zone Demo.api "http://x" Demo.back) Demo.two_zones))
  /\ System.delete_zone Demo.api (Demo.refusing 500) 1
       (Demo.front_system, Demo.two_zones)
     = (Raise (DeleteZoneFailed 1),
        (Demo.front_system,
         Zone.logged (delete_zone_request Demo.api "http://x" 1) Demo.two_zones))
  /\ System.update_zone_order Demo.api (Demo.refusing 500) [1]
       (Demo.front_system, Demo.two_zones)
     = (Raise (UpdateZoneOrderFailed [1]),
        (Demo.front_system,
         Zone.logged (put_zone_order Demo.api "http://x" [1]) Demo.two_zones))
  /\ fst (Zone.update_other Demo.api (Demo.refusing 500) 1%positive 2%positive
            Demo.two_zones)
     = Raise (ZoneUpdateFailed 500 (zone_json (merged Demo.front Demo.back)))
  /\ fst (run_setter Demo.api (Demo.refusing 500) 1%positive (SetTime 600)
            Demo.two_zones)
     = Raise (ZoneUpdateFailed 500
                (zone_json (Zone.set_time_field (VInt 600) Demo.front)))
  /\ fst (Zone.turn_on Demo.api (Demo.refusing 500) 1%positive Demo.two_zones)
     = Ok tt.
Proof.
  destruct (refused_mutations Demo.api (Demo.refusing 500))
    as (Hstate & Hadd & Hdel & Hord & Hupd & Hset & Hturn).
  assert (500 <> 200) as Hne by discriminate.
  repeat apply conj.
  - exact (proj1 (Hstate true Demo.front_system Demo.two_zones
                    (Response 500 None) eq_refl Hne)).
  - exact (proj1 (Hadd 2%positive Demo.back Demo.front_system Demo.two_zones
                    (Response 500 None) eq_refl eq_refl Hne)).
  - exact (proj1 (Hdel 1 Demo.front_system Demo.two_zones
                    (Response 500 None) eq_refl Hne)).
  - exact (proj1 (Hord [1] Demo.front_system Demo.two_zones
                    (Response 500 None) eq_refl Hne)).
  - exact (f_equal fst
             (proj1 (Hupd 1%positive 2%positive Demo.front Demo.back Demo.two_zones
                       (Response 500 None) eq_refl eq_refl eq_refl Hne))).
  - exact (f_equal fst
             (proj1 (Hset 1%positive (SetTime 600) Demo.front Demo.two_zones
                       (Response 500 None) eq_refl eq_refl Hne))).
  - exact (f_equal fst
             (Hturn 1%positive Demo.front Demo.two_zones (Response 500 None) true
                eq_refl eq_refl)).
Defined.

(** ** What the methods of [System] assign *)

Section Assignments.
Variable api : API.
Variable srv : server.

(** Once the object is built, no method changes a dataclass field: [zones],
    [system_state] and [host] stay what they were, and only the attribute
    [state] moves. *)
Lemma system_call_keeps_fields (c : system_call) (s : System.st) :
  same_fields (fst (snd (run_system_call api srv c s))) (fst s).
Proof.
  destruct s as [[zs ss h st] w].
  destruct c; simpl.
  all: unfold System.update_zone, System.update_zone_order, System.add_zone,
         System.update_zone_state, System.get_zones, System._fetch_zones,
         System.get_system_state, System.set_system_state,
         System._update_system_state, System.get_zone_by_id,
         System.delete_zone, Zone.call_update, Zone.turn_on, Zone.turn_off,
         Zone.setattr, Zone.load.
  all: unfold_monad; unfold Zone.send; simpl.
  all: repeat (case_match; simplify_eq; simpl in * ); done.
Qed.

Lemma system_calls_keep_fields (cs : list system_call) (s : System.st) :
  same_fields (fst (run_system_calls api srv cs s)) (fst s).
Proof.
  revert s. induction cs as [|c cs IH]; intros s; simpl; [done|].
  destruct (IH (snd (run_system_call api srv c s))) as (Hz & Hs & Hh).
  destruct (system_call_keeps_fields c s) as (Hz' & Hs' & Hh').
  repeat split; congruence.
Qed.

(** A scan over zones that all carry another id finds nothing. *)
Lemma first_with_id_absent (h : gmap loc Zone.t) (zone_id : Z) (zs : list loc) :
  Forall (fun l => exists z, h !! l = Some z /\ Zone.id z <> zone_id) zs ->
  System.first_with_id h zone_id zs = Ok None.
Proof.
  induction 1 as [|l zs (z & Hz & Hid) _ IH]; simpl; [done|].
  rewrite Hz. apply Z.eqb_neq in Hid. by rewrite Hid.
Qed.




(** [update_zone] on a zone whose id the scan finds: the call of [update]
    with an argument raises before anything is sent or assigned. *)
Lemma update_zone_present (zone : loc) (z : Zone.t) (sys : System.t)
    (w : Zone.world) (l : loc) :
  Zone.heap w !! zone = Some z ->
  System.first_with_id (Zone.heap w) (Zone.id z) (System.zones sys) = Ok (Some l) ->
  System.update_zone api srv zone (sys, w) = (Raise TypeError, (sys, w)).
Proof.
  unfold System.update_zone, System.get_zone_by_id. unfold_monad.
  unfold Zone.load. simpl. intros ->. simpl. by intros ->.
Qed.

Lemma update_zone_absent (zone : loc) (z : Zone.t) (sys : System.t)
    (w : Zone.world) :
  Zone.heap w !! zone = Some z ->
  System.first_with_id (Zone.heap w) (Zone.id z) (System.zones sys) = Ok None ->
  System.update_zone api srv zone (sys, w) = (Raise (ZoneNotFound (Zone.id z)), (sys, w)).
Proof.
  unfold System.update_zone, System.get_zone_by_id. unfold_monad.
  unfold Zone.load. simpl. intros ->. simpl. by intros ->.
Qed.

End Assignments.

(** ** Updating and adding zones *)

(** C3 does not hold of the code. On a system that holds the zone [front],
    id 1, and with the argument [back], a zone with the same id and other
    fields, [update_zone] finds the zone and then raises [TypeError] at the
    call of [update] with an argument: no request is sent, the zone in memory
    keeps its fields, and the zone list is not fetched. On a system that
    holds no zone the same call raises the zone-not-found exception. *)
Theorem update_zone_raises_type_error :
  System.update_zone Demo.api Demo.example_host 2%positive
    (Demo.front_system, Demo.two_zones)
  = (Raise TypeError, (Demo.front_system, Demo.two_zones))
  /\ Zone.log Demo.two_zones = []
  /\ Zone.heap Demo.two_zones !! 1%positive = Some Demo.front
  /\ System.update_zone Demo.api Demo.example_host 2%positive
       (Demo.bare_system, Demo.two_zones)
     = (Raise (ZoneNotFound 1), (Demo.bare_system, Demo.two_zones)).
Proof. repeat split. Qed.

(** C6 does not hold of the code. On a system that holds the zone [front],
    against a host on which that zone is now called [Lawn],
    [update_zone_state(1, True)] assigns [state] on the zone in memory, sends
    the zone-state PUT and the zone-info GET, and drops what the GET
    returned: the zone in memory is still called [Front]. On an id that no
    zone carries the call raises the zone-not-found exception and sends
    nothing. *)
Theorem update_zone_state_drops_fetched_list :
  System.update_zone_state Demo.api Demo.renaming 1 true
    (Demo.front_system, Demo.two_zones)
  = (Ok tt,
     (Demo.front_system,
      Zone.World
        (<[1%positive := Zone.set_state_field (VBool true) Demo.front]>
           (Zone.heap Demo.two_zones))
        "http://x"
        [put_zone_state Demo.api "http://x" 1 (VBool true);
         get_zone_info Demo.api "http://x"]))
  /\ Demo.renaming [put_zone_state Demo.api "http://x" 1 (VBool true)]
       (get_zone_info Demo.api "http://x")
     = Answer (Response 200 (Some (VList [Demo.lawn_record])))
  /\ zone_of_record Demo.lawn_record = Some Demo.lawn
  /\ Zone.name (Zone.set_state_field (VBool true) Demo.front) = VStr "Front"
  /\ System.update_zone_state Demo.api Demo.renaming 9 true
       (Demo.front_system, Demo.two_zones)
     = (Raise (ZoneNotFound 9), (Demo.front_system, Demo.two_zones)).
Proof. repeat split. Qed.

(** C7 does not hold of the code. On a system that holds no zone, against a
    host that creates and lists the zones it is sent, [add_zone(back)] POSTs
    the five fields, gets a 200, fetches the zone list, which now holds the
    new zone, and assigns [zones] its old value: [get_zones()] afterwards
    returns the empty list. *)
Theorem add_zone_keeps_stale_zones :
  System.add_zone Demo.api Demo.registering 2%positive
    (Demo.bare_system, Demo.two_zones)
  = (Ok tt,
     (Demo.bare_system,
      Zone.World (Zone.heap Demo.two_zones) "http://x"
        [post_zone Demo.api "http://x" Demo.back;
         get_zone_info Demo.api "http://x"]))
  /\ json (post_zone Demo.api "http://x" Demo.back)
     = Some (VDict [("name", VStr "Back"); ("gpio", VInt 7); ("time", VInt 120);
                    ("enabled", VBool false); ("auto_off", VBool true)]%string)
  /\ (exists record,
        Demo.registering
          [post_zone Demo.api "http://x" Demo.back;
           get_zone_info Demo.api "http://x"]
          (get_zone_info Demo.api "http://x")
        = Answer (Response 200 (Some (VList [record])))
        /\ zone_of_record record = Some Demo.back_registered)
  /\ fst (System.get_zones Demo.api Demo.registering
            (snd (System.add_zone Demo.api Demo.registering 2%positive
                    (Demo.bare_system, Demo.two_zones))))
     = Ok [].
Proof.
  split; [reflexivity|]. split; [reflexivity|]. split; [|reflexivity].
  eexists. split; reflexivity.
Qed.

(** ** Refreshing a zone from the server *)

Section Refresh.
Variable api : API.
Variable srv : server.

(** [Zone.update] when the response body is a JSON object. *)
Lemma update_run_dict (self : loc) (w : Zone.world) (z : Zone.t)
    (resp : response) (d : list (string * value)) :
  Zone.heap w !! self = Some z ->
  srv (Zone.log w) (get_zone_record api (Zone.host w) (Zone.id z)) = Answer resp ->
  body resp = Some (VDict d) ->
  Zone.update api srv self w
  = (match snd (overwrite refresh_fields d z) with
     | None => Ok tt
     | Some key => Raise (KeyError key)
     end,
     Zone.World (<[self := fst (overwrite refresh_fields d z)]> (Zone.heap w))
       (Zone.host w)
       (Zone.log w ++ [get_zone_record api (Zone.host w) (Zone.id z)])).
Proof.
  intros Hs Hsrv Hbody.
  unfold Zone.update, Zone.json_field, Zone.setattr, Zone.load, Zone.send,
    response_json, get_zone_record in *.
  unfold bind, gets, modify, of_result. simpl.
  rewrite Hs. simpl. rewrite Hsrv. simpl. rewrite Hbody. simpl.
  unfold Zone.logged. simpl.
  destruct (dict_get d "name") as [v1|]; simpl;
    [rewrite Hs; simpl|by rewrite (insert_id _ _ _ Hs)].
  destruct (dict_get d "gpio") as [v2|]; simpl; [rewrite lookup_insert_eq; simpl|done].
  destruct (dict_get d "time") as [v3|]; simpl;
    [rewrite lookup_insert_eq; simpl|by rewrite !insert_insert_eq].
  destruct (dict_get d "enabled") as [v4|]; simpl;
    [rewrite lookup_insert_eq; simpl|by rewrite !insert_insert_eq].
  destruct (dict_get d "auto_off") as [v5|]; simpl;
    [rewrite lookup_insert_eq; simpl|by rewrite !insert_insert_eq].
  destruct (dict_get d "system_order") as [v6|]; simpl;
    [rewrite lookup_insert_eq; simpl|by rewrite !insert_insert_eq].
  destruct (dict_get d "state") as [v7|]; simpl;
    [rewrite lookup_insert_eq; simpl|by rewrite !insert_insert_eq].
  by rewrite !insert_insert_eq.
Qed.

(** [Zone.update] when the response cannot be read as a JSON object. *)
Lemma update_run_undecodable (self : loc) (w : Zone.world) (z : Zone.t) :
  Zone.heap w !! self = Some z ->
  Zone.update api srv self w
  = (match srv (Zone.log w) (get_zone_record api (Zone.host w) (Zone.id z)) with
     | ConnectionError => Raise RequestException
     | Answer resp =>
         match body resp with
         | None => Raise JSONDecodeError
         | Some (VDict d) => fst (Zone.update api srv self w)
         | Some _ => Raise TypeError
         end
     end,
     match srv (Zone.log w) (get_zone_record api (Zone.host w) (Zone.id z)) with
     | Answer (Response _ (Some (VDict d))) => snd (Zone.update api srv self w)
     | _ => Zone.logged (get_zone_record api (Zone.host w) (Zone.id z)) w
     end).
Proof.
  intros Hs.
  destruct (srv (Zone.log w) (get_zone_record api (Zone.host w) (Zone.id z)))
    as [[st [[| | | | |d]|]]|] eqn:Hsrv;
    try (by destruct (Zone.update api srv self w)).
  all: unfold Zone.update, Zone.json_field, Zone.setattr, Zone.load, Zone.send,
         response_json, get_zone_record in *.
  all: unfold bind, gets, modify, of_result; simpl.
  all: rewrite Hs; simpl; rewrite Hsrv; simpl; done.
Qed.

End Refresh.

(** X1. [Zone.update] (the refresh from the server) sends one GET to the
    zone-info path followed by the zone's id. When the response body is a
    JSON object with the seven keys, whatever its status code, the seven
    fields of [self] become the values under those keys, [id] stays, and no
    other object changes. *)
Theorem update_overwrites_fields (api : API) (srv : server) (self : loc)
    (w : Zone.world) (z : Zone.t) (resp : response) (d : list (string * value))
    (n g t e a o s : value) :
  Zone.heap w !! self = Some z ->
  srv (Zone.log w) (get_zone_record api (Zone.host w) (Zone.id z)) = Answer resp ->
  body resp = Some (VDict d) ->
  dict_get d "name" = Some n -> dict_get d "gpio" = Some g ->
  dict_get d "time" = Some t -> dict_get d "enabled" = Some e ->
  dict_get d "auto_off" = Some a -> dict_get d "system_order" = Some o ->
  dict_get d "state" = Some s ->
  Zone.update api srv self w
  = (Ok tt,
     Zone.World (<[self := Zone.mk n g t e a o s (Zone.id z)]> (Zone.heap w))
       (Zone.host w)
       (Zone.log w ++ [get_zone_record api (Zone.host w) (Zone.id z)]))
  /\ (forall l : loc, l <> self ->
        Zone.heap (snd (Zone.update api srv self w)) !! l = Zone.heap w !! l).
Proof.
  intros Hs Hsrv Hbody Hn Hg Ht He Ha Ho Hst.
  rewrite (update_run_dict api srv self w z resp d Hs Hsrv Hbody).
  simpl. rewrite Hn, Hg, Ht, He, Ha, Ho, Hst. simpl. split; [done|].
  intros l Hl. by apply lookup_insert_ne.
Qed.

Lemma update_overwrites_fields_witness :
  Zone.update Demo.api Sample.describing 1%positive Demo.two_zones
  = (Ok tt,
     Zone.World (<[1%positive := Demo.lawn]> (Zone.heap Demo.two_zones))
       "http://x" [get_zone_record Demo.api "http://x" 1])
  /\ url (get_zone_record Demo.api "http://x" 1) = "http://x/zone/info/1"%string.
Proof.
  split; [|reflexivity].
  exact (proj1 (update_overwrites_fields Demo.api Sample.describing 1%positive
                  Demo.two_zones Demo.front
                  (Response 200 (Some Demo.lawn_record)) _
                  _ _ _ _ _ _ _
                  eq_refl eq_refl eq_refl
                  eq_refl eq_refl eq_refl eq_refl eq_refl eq_refl eq_refl)).
Defined.

(** X2. When the JSON object of the response lacks one of the seven keys,
    [Zone.update] raises [KeyError] for the first key it lacks, in the order
    name, gpio, time, enabled, auto_off, system_order, state; the fields
    read before that key are already overwritten and the others keep their
    values, so [self] is left half refreshed. *)
Theorem update_stops_at_first_missing_key (api : API) (srv : server)
    (self : loc) (w : Zone.world) (z z' : Zone.t) (resp : response)
    (d : list (string * value)) (key : string) :
  Zone.heap w !! self = Some z ->
  srv (Zone.log w) (get_zone_record api (Zone.host w) (Zone.id z)) = Answer resp ->
  body resp = Some (VDict d) ->
  overwrite refresh_fields d z = (z', Some key) ->
  Zone.update api srv self w
  = (Raise (KeyError key),
     Zone.World (<[self := z']> (Zone.heap w)) (Zone.host w)
       (Zone.log w ++ [get_zone_record api (Zone.host w) (Zone.id z)]))
  /\ dict_get d key = None
  /\ Zone.id z' = Zone.id z.
Proof.
  intros Hs Hsrv Hbody Hover.
  rewrite (update_run_dict api srv self w z resp d Hs Hsrv Hbody), Hover.
  split; [done|]. revert Hover. simpl.
  repeat (lazymatch goal with
          | |- context [dict_get d ?k] => destruct (dict_get d k) eqn:?
          end; [|by intros [= <- <-]]).
  done.
Qed.

Lemma update_stops_at_first_missing_key_witness :
  Zone.update Demo.api Sample.truncating 1%positive Demo.two_zones
  = (Raise (KeyError "time"),
     Zone.World
       (<[1%positive := Zone.mk (VStr "Lawn") (VInt 9) (VInt 300) (VBool true)
                          (VBool false) (VInt 0) (VBool false) 1]>
          (Zone.heap Demo.two_zones))
       "http://x" [get_zone_record Demo.api "http://x" 1]).
Proof.
  exact (proj1 (update_stops_at_first_missing_key Demo.api Sample.truncating
                  1%positive Demo.two_zones Demo.front _
                  (Response 200 (Some Sample.short_record)) _ _
                  eq_refl eq_refl eq_refl eq_refl)).
Defined.

(** X3. When the refresh cannot read a JSON object (the host cannot be
    reached, the body is not JSON, or the JSON value is not an object)
    [Zone.update] raises, respectively, the transport error,
    [JSONDecodeError] and [TypeError], and every field of [self] is as
    before. *)
Theorem update_undecodable_keeps_zone (api : API) (srv : server) (self : loc)
    (w : Zone.world) (z : Zone.t) :
  Zone.heap w !! self = Some z ->
  let req := get_zone_record api (Zone.host w) (Zone.id z) in
  (srv (Zone.log w) req = ConnectionError ->
   Zone.update api srv self w = (Raise RequestException, Zone.logged req w))
  /\ (forall resp, srv (Zone.log w) req = Answer resp -> body resp = None ->
        Zone.update api srv self w = (Raise JSONDecodeError, Zone.logged req w))
  /\ (forall resp v, srv (Zone.log w) req = Answer resp -> body resp = Some v ->
        (forall d, v <> VDict d) ->
        Zone.update api srv self w = (Raise TypeError, Zone.logged req w)).
Proof.
  intros Hs req. subst req.
  rewrite (update_run_undecodable api srv self w z Hs).
  split; [|split].
  - by intros ->.
  - intros [st b] -> Hb. simpl in Hb. by subst b.
  - intros [st b] v -> Hb Hv. simpl in Hb. subst b.
    destruct v as [| | | | |d]; try done. by destruct (Hv d).
Qed.

Lemma update_undecodable_keeps_zone_witness :
  Zone.update Demo.api Sample.unreachable 1%positive Demo.two_zones
  = (Raise RequestException,
     Zone.logged (get_zone_record Demo.api "http://x" 1) Demo.two_zones)
  /\ Zone.update Demo.api Sample.garbling 1%positive Demo.two_zones
     = (Raise JSONDecodeError,
        Zone.logged (get_zone_record Demo.api "http://x" 1) Demo.two_zones)
  /\ Zone.update Demo.api (Sample.constant (VList [Demo.lawn_record]))
       1%positive Demo.two_zones
     = (Raise TypeError,
        Zone.logged (get_zone_record Demo.api "http://x" 1) Demo.two_zones).
Proof.
  split; [|split].
  - exact (proj1 (update_undecodable_keeps_zone Demo.api Sample.unreachable
                    1%positive Demo.two_zones Demo.front eq_refl) eq_refl).
  - exact (proj1 (proj2 (update_undecodable_keeps_zone Demo.api Sample.garbling
                    1%positive Demo.two_zones Demo.front eq_refl))
             (Response 200 None) eq_refl eq_refl).
  - apply (proj2 (proj2 (update_undecodable_keeps_zone Demo.api
                    (Sample.constant (VList [Demo.lawn_record]))
                    1%positive Demo.two_zones Demo.front eq_refl))
             (Response 200 (Some (VList [Demo.lawn_record])))
             (VList [Demo.lawn_record]) eq_refl eq_refl).
    intros d. discriminate.
Defined.

(** ** Looking a zone up *)

(** What the scan returns, on a list of live references. *)
Lemma first_with_id_spec (h : gmap loc Zone.t) (zone_id : Z) (zs : list loc) :
  Forall (fun l => is_Some (h !! l)) zs ->
  exists r, System.first_with_id h zone_id zs = Ok r
    /\ match r with
       | Some l =>
           exists before after z,
             zs = before ++ l :: after
             /\ h !! l = Some z /\ Zone.id z = zone_id
             /\ Forall (fun l' => forall z', h !! l' = Some z' -> Zone.id z' <> zone_id)
                  before
       | None =>
           Forall (fun l' => forall z', h !! l' = Some z' -> Zone.id z' <> zone_id) zs
       end.
Proof.
  induction 1 as [|l zs [z Hz] _ (r & Hr & Hspec)]; simpl.
  - exists None. by split.
  - rewrite Hz. destruct (Zone.id z =? zone_id) eqn:Hid.
    + apply Z.eqb_eq in Hid. exists (Some l). split; [done|].
      exists [], zs, z. by repeat split.
    + apply Z.eqb_neq in Hid. exists r. split; [done|].
      assert (forall z', h !! l = Some z' -> Zone.id z' <> zone_id) as Hl
        by (intros z'; rewrite Hz; by intros [= <-]).
      destruct r as [l0|].
      * destruct Hspec as (before & after & z0 & -> & Hz0 & Hid0 & Hbefore).
        exists (l :: before), after, z0. repeat split; try done.
        by constructor.
      * by constructor.
Qed.

(** X4. [get_zone_by_id] sends nothing and changes nothing. It returns the
    first zone of the list, in list order, whose id is the one asked for,
    also when later zones carry the same id, and [None] exactly when no zone
    of the list carries it. *)
Theorem get_zone_by_id_first_match (zone_id : Z) (sys : System.t)
    (w : Zone.world) :
  Forall (fun l => is_Some (Zone.heap w !! l)) (System.zones sys) ->
  exists r, System.get_zone_by_id zone_id (sys, w) = (Ok r, (sys, w))
    /\ match r with
       | Some l =>
           exists before after z,
             System.zones sys = before ++ l :: after
             /\ Zone.heap w !! l = Some z /\ Zone.id z = zone_id
             /\ Forall (fun l' => forall z', Zone.heap w !! l' = Some z' ->
                                  Zone.id z' <> zone_id) before
       | None =>
           Forall (fun l' => forall z', Zone.heap w !! l' = Some z' ->
                               Zone.id z' <> zone_id) (System.zones sys)
       end.
Proof.
  intros Hlive.
  destruct (first_with_id_spec (Zone.heap w) zone_id (System.zones sys) Hlive)
    as (r & Hr & Hspec).
  exists r. split; [|done].
  unfold System.get_zone_by_id. unfold_monad. simpl. by rewrite Hr.
Qed.

Lemma get_zone_by_id_first_match_witness :
  exists r, System.get_zone_by_id 1 (Sample.crowded_system, Demo.two_zones)
            = (Ok r, (Sample.crowded_system, Demo.two_zones))
    /\ match r with
       | Some l =>
           exists before after z,
             System.zones Sample.crowded_system = before ++ l :: after
             /\ Zone.heap Demo.two_zones !! l = Some z /\ Zone.id z = 1
             /\ Forall (fun l' => forall z', Zone.heap Demo.two_zones !! l' = Some z' ->
                                  Zone.id z' <> 1) before
       | None =>
           Forall (fun l' => forall z', Zone.heap Demo.two_zones !! l' = Some z' ->
                               Zone.id z' <> 1) (System.zones Sample.crowded_system)
       end.
Proof.
  apply (get_zone_by_id_first_match 1 Sample.crowded_system Demo.two_zones).
  repeat constructor; by eexists.
Defined.

(** ** Turning a zone on and off *)

(** X5. [turn_on] and [turn_off] assign [state] before they send: whatever
    the host does (any status code, or no answer at all) [self.state] is the
    new flag afterwards, every other field and every other object is as
    before, and exactly one PUT has gone out, with the body
    [{"id": self.id, "state": flag}]. The call raises only when the
    transport fails, and the flag is set in that case too. *)
Theorem turn_on_off_effect (api : API) (srv : server) (self : loc)
    (w : Zone.world) (z : Zone.t) (on : bool) :
  Zone.heap w !! self = Some z ->
  let req := put_zone_state api (Zone.host w) (Zone.id z) (VBool on) in
  let out := if on then Zone.turn_on api srv self w
             else Zone.turn_off api srv self w in
  snd out
  = Zone.World (<[self := Zone.set_state_field (VBool on) z]> (Zone.heap w))
      (Zone.host w) (Zone.log w ++ [req])
  /\ (srv (Zone.log w) req = ConnectionError -> fst out = Raise RequestException)
  /\ (forall resp, srv (Zone.log w) req = Answer resp -> fst out = Ok tt)
  /\ (forall l : loc, l <> self -> Zone.heap (snd out) !! l = Zone.heap w !! l).
Proof.
  intros Hs req out. subst req out.
  destruct on.
  - rewrite (turn_on_run api srv self w z Hs). simpl.
    split; [done|]. split; [by intros ->|]. split; [by intros resp ->|].
    intros l Hl. by apply lookup_insert_ne.
  - rewrite (turn_off_run api srv self w z Hs). simpl.
    split; [done|]. split; [by intros ->|]. split; [by intros resp ->|].
    intros l Hl. by apply lookup_insert_ne.
Qed.

Lemma turn_on_off_effect_witness :
  Zone.turn_on Demo.api Sample.unreachable 1%positive Demo.two_zones
  = (Raise RequestException,
     Zone.World
       (<[1%positive := Zone.set_state_field (VBool true) Demo.front]>
          (Zone.heap Demo.two_zones))
       "http://x" [put_zone_state Demo.api "http://x" 1 (VBool true)]).
Proof.
  destruct (turn_on_off_effect Demo.api Sample.unreachable 1%positive
              Demo.two_zones Demo.front true eq_refl) as (Hw & Herr & _).
  simpl in Hw, Herr.
  rewrite (surjective_pairing (Zone.turn_on _ _ _ _)).
  by rewrite Hw, (Herr eq_refl).
Defined.

(** ** Fetching, and building the object *)

Section Fetch.
Variable api : API.
Variable srv : server.

(** The whole of [_fetch_zones], read off the server's reply. *)
Lemma fetch_zones_run (sys : System.t) (w : Zone.world) :
  System._fetch_zones api srv (sys, w)
  = (match srv (Zone.log w) (get_zone_info api (System.host sys)) with
     | ConnectionError => Raise RequestException
     | Answer resp =>
         match body resp with
         | None => Raise JSONDecodeError
         | Some v =>
             match py_iter v with
             | Ok items => Ok (map Zone.positional items)
             | Raise e => Raise e
             end
         end
     end,
     (sys, Zone.logged (get_zone_info api (System.host sys)) w)).
Proof.
  unfold System._fetch_zones, get_zone_info. unfold_monad.
  unfold Zone.send, response_json. simpl.
  destruct (srv _ _) as [[st [v|]]|]; simpl; [|done..].
  by destruct (py_iter v).
Qed.

(** The constructor, through its two fetches. *)
Lemma init_run (zones : list loc) (b : bool) (host : string) (w : Zone.world) :
  System.__init__ api srv zones b host w
  = match System._fetch_zones api srv (System.mk zones (VBool b) host None, w) with
    | (Raise e, (_, w1)) => (Raise e, w1)
    | (Ok _, (_, w1)) =>
        match System.get_system_state api srv
                (System.mk zones (VBool b) host None, w1) with
        | (Raise e, (_, w2)) => (Raise e, w2)
        | (Ok v, (self, w2)) => (Ok (System.set_system_state_field v self), w2)
        end
    end.
Proof.
  unfold System.__init__, System.__post_init__, System.get_zones, bind.
  pose proof (fetch_zones_state api srv
                (System.mk zones (VBool b) host None, w)) as Hs.
  destruct (System._fetch_zones api srv _) as [[zs|e] [s1 w1]]; simpl in *;
    [|done].
  injection Hs as -> ->.
  unfold System.self_get, System.self_set, gets, modify. simpl.
  by destruct (System.get_system_state api srv _) as [[v|e] [self w2]].
Qed.

End Fetch.

(** X6. [_fetch_zones] sends one GET, never looks at the status code, and
    never changes the [System] object or a [Zone] object. It returns one zone
    per element of a JSON array (none for the empty array), one per key of a
    JSON object, and raises [TypeError] on null, a boolean or a number,
    [JSONDecodeError] on a body that is not JSON and the transport error on
    a host that cannot be reached. Every zone it builds has the element as
    its [name] and the id 0. *)
Theorem fetch_zones_outcomes (api : API) (srv : server) (sys : System.t)
    (w : Zone.world) :
  let req := get_zone_info api (System.host sys) in
  let out := System._fetch_zones api srv (sys, w) in
  snd out = (sys, Zone.logged req w)
  /\ (srv (Zone.log w) req = ConnectionError -> fst out = Raise RequestException)
  /\ (forall resp, srv (Zone.log w) req = Answer resp -> body resp = None ->
        fst out = Raise JSONDecodeError)
  /\ (forall resp items, srv (Zone.log w) req = Answer resp ->
        body resp = Some (VList items) ->
        exists zs, fst out = Ok zs /\ length zs = length items
          /\ forall i z, zs !! i = Some z ->
               items !! i = Some (Zone.name z) /\ Zone.id z = 0)
  /\ (forall resp d, srv (Zone.log w) req = Answer resp ->
        body resp = Some (VDict d) ->
        exists zs, fst out = Ok zs /\ length zs = length d
          /\ forall i z, zs !! i = Some z ->
               VStr <$> (fst <$> d !! i) = Some (Zone.name z) /\ Zone.id z = 0)
  /\ (forall resp v, srv (Zone.log w) req = Answer resp -> body resp = Some v ->
        v = VNone \/ (exists b, v = VBool b) \/ (exists n, v = VInt n) ->
        fst out = Raise TypeError).
Proof.
  intros req out. subst req out. rewrite fetch_zones_run. simpl.
  split; [done|]. split; [by intros ->|]. split; [by intros resp -> ->|].
  split; [|split].
  - intros resp items -> ->. simpl. eexists. split; [done|].
    split; [by rewrite length_map|].
    intros i z. rewrite list_lookup_fmap.
    destruct (items !! i) as [item|]; simpl; [|done]. by intros [= <-].
  - intros resp d -> ->. simpl. eexists. split; [done|].
    split; [by rewrite !length_map|].
    intros i z. rewrite !list_lookup_fmap.
    destruct (d !! i) as [[k v]|]; simpl; [|done]. by intros [= <-].
  - intros resp v -> -> [->|[[b ->]|[n ->]]]; done.
Qed.

Lemma fetch_zones_outcomes_witness :
  fst (System._fetch_zones Demo.api (Sample.constant (VList []))
         (Demo.bare_system, Demo.empty_world)) = Ok []
  /\ fst (System._fetch_zones Demo.api (Sample.constant (VInt 3))
            (Demo.bare_system, Demo.empty_world)) = Raise TypeError
  /\ fst (System._fetch_zones Demo.api Sample.garbling
            (Demo.bare_system, Demo.empty_world)) = Raise JSONDecodeError.
Proof.
  split; [|split].
  - destruct (fetch_zones_outcomes Demo.api (Sample.constant (VList []))
                Demo.bare_system Demo.empty_world) as (_ & _ & _ & Harr & _).
    destruct (Harr (Response 200 (Some (VList []))) [] eq_refl eq_refl)
      as (zs & Hzs & Hlen & _).
    destruct zs; [exact Hzs|discriminate Hlen].
  - destruct (fetch_zones_outcomes Demo.api (Sample.constant (VInt 3))
                Demo.bare_system Demo.empty_world) as (_ & _ & _ & _ & _ & Hscalar).
    apply (Hscalar (Response 200 (Some (VInt 3))) (VInt 3) eq_refl eq_refl).
    right; right. by exists 3.
  - destruct (fetch_zones_outcomes Demo.api Sample.garbling
                Demo.bare_system Demo.empty_world) as (_ & _ & Hbad & _).
    exact (Hbad (Response 200 None) eq_refl eq_refl).
Defined.

(** X7. When both fetches of the constructor succeed, the object it returns
    holds the [zones] list it was given, untouched by what the zone-info
    endpoint sent, the [host] it was given, and as [system_state] the value
    under [system_state] in the server's answer: the [system_state] argument
    is overwritten. The two GETs go out in that order. *)
Theorem init_keeps_given_zones (api : API) (srv : server) (zones : list loc)
    (b : bool) (host : string) (w : Zone.world) (resp1 resp2 : response)
    (v1 : value) (items : list value) (d : list (string * value)) (v : value) :
  srv (Zone.log w) (get_zone_info api host) = Answer resp1 ->
  body resp1 = Some v1 ->
  py_iter v1 = Ok items ->
  srv (Zone.log w ++ [get_zone_info api host]) (get_system_state_request api host)
  = Answer resp2 ->
  body resp2 = Some (VDict d) ->
  dict_get d "system_state" = Some v ->
  System.__init__ api srv zones b host w
  = (Ok (System.mk zones v host (Some v)),
     Zone.logged (get_system_state_request api host)
       (Zone.logged (get_zone_info api host) w)).
Proof.
  intros Hsrv1 Hbody1 Hiter Hsrv2 Hbody2 Hkey.
  rewrite init_run, fetch_zones_run. simpl.
  rewrite Hsrv1, Hbody1, Hiter.
  by rewrite (get_system_state_answer api srv
                (System.mk zones (VBool b) host None)
                (Zone.logged (get_zone_info api host) w) resp2 d v
                Hsrv2 Hbody2 Hkey).
Qed.

Lemma init_keeps_given_zones_witness :
  System.__init__ Demo.api Demo.example_host [1%positive] true "http://x"
    Demo.two_zones
  = (Ok Demo.front_system,
     Zone.logged (get_system_state_request Demo.api "http://x")
       (Zone.logged (get_zone_info Demo.api "http://x") Demo.two_zones)).
Proof.
  exact (init_keeps_given_zones Demo.api Demo.example_host [1%positive] true
           "http://x"%string Demo.two_zones
           (Response 200 (Some (VList [Demo.front_record])))
           (Response 200 (Some (VDict [("system_state", VBool false)]%string)))
           _ _ _ _ eq_refl eq_refl eq_refl eq_refl eq_refl eq_refl).
Defined.

(** X8. When the zone fetch of the constructor raises, the constructor
    raises the same exception and the system state is never asked for: one
    request has gone out. When the zone fetch returns and the state fetch
    raises, the constructor raises that exception after two requests. No
    [Zone] object is touched in either case. *)
Theorem init_propagates_fetch_errors (api : API) (srv : server)
    (zones : list loc) (b : bool) (host : string) (w : Zone.world) :
  let self := System.mk zones (VBool b) host None in
  let w1 := Zone.logged (get_zone_info api host) w in
  (forall e, fst (System._fetch_zones api srv (self, w)) = Raise e ->
     System.__init__ api srv zones b host w = (Raise e, w1))
  /\ (forall zs e, fst (System._fetch_zones api srv (self, w)) = Ok zs ->
        fst (System.get_system_state api srv (self, w1)) = Raise e ->
        System.__init__ api srv zones b host w
        = (Raise e, Zone.logged (get_system_state_request api host) w1)).
Proof.
  intros self w1. subst self w1. split.
  - intros e He. rewrite init_run.
    pose proof (fetch_zones_state api srv
                  (System.mk zones (VBool b) host None, w)) as Hs.
    destruct (System._fetch_zones api srv _) as [[zs|e'] [s1 w1]];
      simpl in *; congruence.
  - intros zs e Hzs He. rewrite init_run.
    pose proof (fetch_zones_state api srv
                  (System.mk zones (VBool b) host None, w)) as Hs.
    destruct (System._fetch_zones api srv _) as [[zs'|e'] [s1 w1]];
      simpl in *; [|done].
    injection Hs as -> ->.
    pose proof (update_system_state_world api srv
                  (System.mk zones (VBool b) host None,
                   Zone.logged (get_zone_info api host) w)) as Hw.
    revert He Hw. unfold System.get_system_state, bind.
    destruct (System._update_system_state api srv _) as [[[]|e'] [s2 w2]];
      simpl; [|by intros [= ->] ->].
    unfold System.self_get, gets, ret, raise. simpl.
    destruct (System.state s2); simpl; [done|]. by intros [= <-] ->.
Qed.

Lemma init_propagates_fetch_errors_witness :
  System.__init__ Demo.api Sample.garbling [] false "http://x" Demo.empty_world
  = (Raise JSONDecodeError,
     Zone.logged (get_zone_info Demo.api "http://x") Demo.empty_world)
  /\ System.__init__ Demo.api Demo.renaming [] false "http://x" Demo.empty_world
     = (Raise TypeError,
        Zone.logged (get_system_state_request Demo.api "http://x")
          (Zone.logged (get_zone_info Demo.api "http://x") Demo.empty_world)).
Proof.
  split.
  - exact (proj1 (init_propagates_fetch_errors Demo.api Sample.garbling
                    [] false "http://x"%string Demo.empty_world)
             JSONDecodeError eq_refl).
  - exact (proj2 (init_propagates_fetch_errors Demo.api Demo.renaming
                    [] false "http://x"%string Demo.empty_world)
             _ TypeError eq_refl eq_refl).
Defined.

(** ** Errors of the state accessors *)

Section StateErrors.
Variable api : API.
Variable srv : server.

(** The whole of [_update_system_state], read off the server's reply. *)
Lemma update_system_state_run (sys : System.t) (w : Zone.world) :
  System._update_system_state api srv (sys, w)
  = match srv (Zone.log w) (get_system_state_request api (System.host sys)) with
    | ConnectionError =>
        (Raise RequestException,
         (sys, Zone.logged (get_system_state_request api (System.host sys)) w))
    | Answer resp =>
        match body resp with
        | None =>
            (Raise JSONDecodeError,
             (sys, Zone.logged (get_system_state_request api (System.host sys)) w))
        | Some v =>
            match py_getitem v "system_state" with
            | Ok x =>
                (Ok tt,
                 (System.set_state_field x sys,
                  Zone.logged (get_system_state_request api (System.host sys)) w))
            | Raise e =>
                (Raise e,
                 (sys, Zone.logged (get_system_state_request api (System.host sys)) w))
            end
        end
    end.
Proof.
  unfold System._update_system_state, get_system_state_request. unfold_monad.
  unfold Zone.send, response_json. simpl.
  destruct (srv _ _) as [[st [v|]]|]; simpl; [|done..].
  by destruct (py_getitem v _).
Qed.

(** A fetch of the state that raises has assigned nothing. *)
Lemma update_system_state_raises (sys : System.t) (w : Zone.world) (e : exn) :
  fst (System._update_system_state api srv (sys, w)) = Raise e ->
  System._update_system_state api srv (sys, w)
  = (Raise e, (sys, Zone.logged (get_system_state_request api (System.host sys)) w)).
Proof.
  rewrite update_system_state_run.
  destruct (srv _ _) as [[st [v|]]|]; simpl; [|congruence..].
  destruct (py_getitem v _); simpl; [done|congruence].
Qed.

(** A [get_system_state] that raises has assigned nothing either. *)
Lemma get_system_state_raises (sys : System.t) (w : Zone.world) (e : exn) :
  fst (System._update_system_state api srv (sys, w)) = Raise e ->
  System.get_system_state api srv (sys, w)
  = (Raise e, (sys, Zone.logged (get_system_state_request api (System.host sys)) w)).
Proof.
  intros He. unfold System.get_system_state, bind.
  by rewrite (update_system_state_raises sys w e He).
Qed.

End StateErrors.

(** X9. [get_system_state] never looks at the status code. It raises
    [KeyError] for [system_state] when the JSON object of the answer lacks
    that key, [TypeError] when the JSON value is not an object,
    [JSONDecodeError] when the body is not JSON, and the transport error when
    the host cannot be reached; in each case the [System] object, its
    attribute [state] included, is as before. *)
Theorem get_system_state_errors (api : API) (srv : server) (sys : System.t)
    (w : Zone.world) :
  let req := get_system_state_request api (System.host sys) in
  let out := System.get_system_state api srv (sys, w) in
  (srv (Zone.log w) req = ConnectionError ->
   out = (Raise RequestException, (sys, Zone.logged req w)))
  /\ (forall resp, srv (Zone.log w) req = Answer resp -> body resp = None ->
        out = (Raise JSONDecodeError, (sys, Zone.logged req w)))
  /\ (forall resp d, srv (Zone.log w) req = Answer resp ->
        body resp = Some (VDict d) -> dict_get d "system_state" = None ->
        out = (Raise (KeyError "system_state"), (sys, Zone.logged req w)))
  /\ (forall resp v, srv (Zone.log w) req = Answer resp -> body resp = Some v ->
        (forall d, v <> VDict d) ->
        out = (Raise TypeError, (sys, Zone.logged req w))).
Proof.
  intros req out. subst req out.
  split; [|split; [|split]].
  - intros Hsrv. apply get_system_state_raises.
    by rewrite update_system_state_run, Hsrv.
  - intros resp Hsrv Hbody. apply get_system_state_raises.
    by rewrite update_system_state_run, Hsrv, Hbody.
  - intros resp d Hsrv Hbody Hkey. apply get_system_state_raises.
    rewrite update_system_state_run, Hsrv, Hbody. simpl. by rewrite Hkey.
  - intros resp v Hsrv Hbody Hv. apply get_system_state_raises.
    rewrite update_system_state_run, Hsrv, Hbody.
    destruct v as [| | | | |d]; try done. by destruct (Hv d).
Qed.

Lemma get_system_state_errors_witness :
  System.get_system_state Demo.api Sample.describing
    (Demo.bare_system, Demo.empty_world)
  = (Raise (KeyError "system_state"),
     (Demo.bare_system,
      Zone.logged (get_system_state_request Demo.api "http://x") Demo.empty_world))
  /\ System.get_system_state Demo.api Demo.renaming
       (Demo.bare_system, Demo.empty_world)
     = (Raise TypeError,
        (Demo.bare_system,
         Zone.logged (get_system_state_request Demo.api "http://x")
           Demo.empty_world)).
Proof.
  destruct (get_system_state_errors Demo.api Sample.describing
              Demo.bare_system Demo.empty_world) as (_ & _ & Hkey & _).
  destruct (get_system_state_errors Demo.api Demo.renaming
              Demo.bare_system Demo.empty_world) as (_ & _ & _ & Htype).
  split.
  - exact (Hkey (Response 200 (Some Demo.lawn_record)) _ eq_refl eq_refl eq_refl).
  - apply (Htype (Response 200 (Some (VList [Demo.lawn_record])))
             (VList [Demo.lawn_record]) eq_refl eq_refl).
    intros d. discriminate.
Defined.

(** X10. When the PUT of [set_system_state] is answered 200 and the fetch
    that follows raises, [set_system_state] raises that exception: the caller
    sees a failure although the server accepted the new state, both requests
    have gone out, and the [System] object is as before. *)
Theorem set_system_state_refetch_failure (api : API) (srv : server) (b : bool)
    (sys : System.t) (w : Zone.world) (resp : response) (e : exn) :
  let put := put_system_state api (System.host sys) b in
  srv (Zone.log w) put = Answer resp ->
  status_code resp = 200 ->
  fst (System._update_system_state api srv (sys, Zone.logged put w)) = Raise e ->
  System.set_system_state api srv b (sys, w)
  = (Raise e,
     (sys, Zone.logged (get_system_state_request api (System.host sys))
             (Zone.logged put w))).
Proof.
  intros put Hsrv Hst He.
  pose proof (update_system_state_raises api srv sys (Zone.logged put w) e He)
    as Hrun.
  subst put. revert Hsrv Hrun.
  unfold System.set_system_state, put_system_state. unfold_monad.
  unfold Zone.send. simpl. intros -> Hrun. simpl.
  apply Z.eqb_eq in Hst. rewrite Hst. simpl. exact Hrun.
Qed.

Lemma set_system_state_refetch_failure_witness :
  System.set_system_state Demo.api Sample.garbling true
    (Demo.bare_system, Demo.empty_world)
  = (Raise JSONDecodeError,
     (Demo.bare_system,
      Zone.logged (get_system_state_request Demo.api "http://x")
        (Zone.logged (put_system_state Demo.api "http://x" true)
           Demo.empty_world))).
Proof.
  exact (set_system_state_refetch_failure Demo.api Sample.garbling true
           Demo.bare_system Demo.empty_world (Response 200 None) JSONDecodeError
           eq_refl eq_refl eq_refl).
Defined.

(** ** What the methods of [System] never do *)

(** X11. [update_zone] never succeeds and never sends a request: for every
    argument and every state it raises and leaves the [System] object, the
    [Zone] objects and the log as they were. On a list of live references it
    raises [TypeError] when some zone of the list carries the argument's id,
    and the zone-not-found exception for that id when none does. *)
Theorem update_zone_never_succeeds (api : API) (srv : server) (zone : loc)
    (sys : System.t) (w : Zone.world) :
  (exists e, System.update_zone api srv zone (sys, w) = (Raise e, (sys, w)))
  /\ (forall (z z' : Zone.t) (l : loc),
        Zone.heap w !! zone = Some z ->
        Forall (fun l => is_Some (Zone.heap w !! l)) (System.zones sys) ->
        l ∈ System.zones sys ->
        Zone.heap w !! l = Some z' ->
        Zone.id z' = Zone.id z ->
        System.update_zone api srv zone (sys, w) = (Raise TypeError, (sys, w)))
  /\ (forall z : Zone.t,
        Zone.heap w !! zone = Some z ->
        Forall (fun l => exists z', Zone.heap w !! l = Some z'
                                    /\ Zone.id z' <> Zone.id z)
          (System.zones sys) ->
        System.update_zone api srv zone (sys, w)
        = (Raise (ZoneNotFound (Zone.id z)), (sys, w))).
Proof.
  split; [|split].
  - unfold System.update_zone, System.get_zone_by_id, Zone.call_update.
    unfold_monad. unfold Zone.load. simpl.
    destruct (Zone.heap w !! zone) as [z|]; simpl; [|by eexists].
    destruct (System.first_with_id _ _ _) as [[l|]|e]; simpl; by eexists.
  - intros z z' l Hz Hlive Hin Hz' Hid.
    destruct (first_with_id_spec (Zone.heap w) (Zone.id z) (System.zones sys)
                Hlive) as ([l0|] & Hfind & Hspec).
    + by apply (update_zone_present api srv zone z sys w l0).
    + rewrite Forall_forall in Hspec. by destruct (Hspec l Hin z' Hz').
  - intros z Hz Habsent.
    apply (update_zone_absent api srv zone z sys w Hz).
    by apply first_with_id_absent.
Qed.

Lemma update_zone_never_succeeds_witness :
  System.update_zone Demo.api Demo.example_host 2%positive
    (Demo.front_system, Demo.two_zones)
  = (Raise TypeError, (Demo.front_system, Demo.two_zones))
  /\ System.update_zone Demo.api Demo.example_host 3%positive
       (Demo.front_system, Sample.three_zones)
     = (Raise (ZoneNotFound 5), (Demo.front_system, Sample.three_zones)).
Proof.
  split.
  - apply (proj1 (proj2 (update_zone_never_succeeds Demo.api Demo.example_host
                           2%positive Demo.front_system Demo.two_zones))
             Demo.back Demo.front 1%positive eq_refl).
    + repeat constructor; by eexists.
    + by left.
    + reflexivity.
    + reflexivity.
  - apply (proj2 (proj2 (update_zone_never_succeeds Demo.api Demo.example_host
                           3%positive Demo.front_system Sample.three_zones))
             Sample.shed eq_refl).
    repeat constructor. exists Demo.front. split; [reflexivity|discriminate].
Defined.

Section Frames.
Variable api : API.
Variable srv : server.




(** The constructor returns an object with the list and the host it got. *)
Lemma init_fields (zones : list loc) (b : bool) (host : string)
    (w w' : Zone.world) (self : System.t) :
  System.__init__ api srv zones b host w = (Ok self, w') ->
  System.zones self = zones /\ System.host self = host.
Proof.
  rewrite init_run.
  destruct (System._fetch_zones api srv _) as [[zs|e] [s1 w1]]; [|done].
  pose proof (system_call_keeps_fields api srv CallGetSystemState
                (System.mk zones (VBool b) host None, w1)) as (Hz & _ & Hh).
  simpl in Hz, Hh. unfold bind in Hz, Hh.
  destruct (System.get_system_state api srv _) as [[v|e] [s2 w2]]; [|done].
  simpl in *. intros [= <- <-]. by simpl.
Qed.

End Frames.

(** X12. Once a [System] is built, no sequence of calls of its methods,
    failed ones included, changes [zones], [host] or [system_state]:
    [zones] and [host] are the constructor's arguments for good, and
    [system_state] is the value fetched during construction. *)
Theorem constructed_fields_are_final (api : API) (srv : server)
    (zones : list loc) (b : bool) (host : string) (w w' : Zone.world)
    (self : System.t) (cs : list system_call) :
  System.__init__ api srv zones b host w = (Ok self, w') ->
  System.zones (fst (run_system_calls api srv cs (self, w'))) = zones
  /\ System.host (fst (run_system_calls api srv cs (self, w'))) = host
  /\ System.system_state (fst (run_system_calls api srv cs (self, w')))
     = System.system_state self.
Proof.
  intros Hinit.
  destruct (init_fields api srv zones b host w w' self Hinit) as [Hz Hh].
  destruct (system_calls_keep_fields api srv cs (self, w')) as (Hz' & Hs' & Hh').
  simpl in *. repeat split; congruence.
Qed.

Lemma constructed_fields_are_final_witness :
  fst (System.__init__ Demo.api Sample.serving [1%positive] true "http://x"
         Demo.two_zones)
  = Ok Demo.front_system
  /\ System.zones
       (fst (run_system_calls Demo.api Sample.serving
               [CallAddZone 2%positive; CallGetZones; CallUpdateZoneOrder [1];
                CallSetSystemState true; CallUpdateZoneState 1 true]
               (Demo.front_system,
                Zone.logged (get_system_state_request Demo.api "http://x")
                  (Zone.logged (get_zone_info Demo.api "http://x")
                     Demo.two_zones))))
     = [1%positive]
  /\ System.system_state
       (fst (run_system_calls Demo.api Sample.serving
               [CallAddZone 2%positive; CallGetZones; CallUpdateZoneOrder [1];
                CallSetSystemState true; CallUpdateZoneState 1 true]
               (Demo.front_system,
                Zone.logged (get_system_state_request Demo.api "http://x")
                  (Zone.logged (get_zone_info Demo.api "http://x")
                     Demo.two_zones))))
     = VBool false.
Proof.
  split; [reflexivity|].
  destruct (constructed_fields_are_final Demo.api Sample.serving [1%positive]
              true "http://x"%string Demo.two_zones _ _
              [CallAddZone 2%positive; CallGetZones; CallUpdateZoneOrder [1];
               CallSetSystemState true; CallUpdateZoneState 1 true]
              eq_refl) as (Hz & _ & Hs).
  split; [exact Hz|exact Hs].
Defined.




Ltac count_requests :=
  first
    [ exists []; split; [by rewrite app_nil_r | split; [simpl; lia | done]]
    | eexists [_]; split; [reflexivity | split; [simpl; lia | done]]
    | eexists [_; _]; split;
        [by rewrite <- app_assoc | split; [simpl; lia | done]] ].

(** X14. A call of a [System] method only appends to the requests sent, and
    appends at most two. [get_zone_by_id] and [update_zone] send none;
    [get_zones], [get_system_state] and [delete_zone] send exactly one. *)
Theorem system_call_sends_at_most_two (api : API) (srv : server)
    (c : system_call) (s : System.st) :
  exists sent : list request,
    Zone.log (snd (snd (run_system_call api srv c s))) = Zone.log (snd s) ++ sent
    /\ (length sent <= 2)%nat
    /\ match c with
       | CallGetZoneById _ | CallUpdateZone _ => sent = []
       | CallGetZones | CallGetSystemState | CallDeleteZone _ =>
           length sent = 1%nat
       | _ => True
       end.
Proof.
  destruct s as [sys w].
  destruct c; simpl.
  all: unfold System.update_zone, System.update_zone_order, System.add_zone,
         System.update_zone_state, System.get_zones, System._fetch_zones,
         System.get_system_state, System.set_system_state,
         System._update_system_state, System.get_zone_by_id,
         System.delete_zone, Zone.call_update, Zone.turn_on, Zone.turn_off,
         Zone.setattr, Zone.load.
  all: unfold_monad; unfold Zone.send, Zone.logged; simpl.
  all: repeat (case_match; simplify_eq; simpl in * ); count_requests.
Qed.

(** ** How pushes compose *)

(** X15. [self.update_other(self)] changes no field of [self] and no other
    object: it only sends the PUT that carries the record of [self] as it
    is. *)
Theorem self_push_keeps_store (api : API) (srv : server) (self : loc)
    (w : Zone.world) (z : Zone.t) :
  Zone.heap w !! self = Some z ->
  snd (Zone.update_other api srv self self w)
  = Zone.logged (put_zone_update api (Zone.host w) z) w.
Proof.
  intros Hs. rewrite (update_other_run api srv self self w z z Hs Hs). simpl.
  assert (merged z z = z) as -> by by destruct z.
  unfold Zone.logged. by rewrite (insert_id _ _ _ Hs).
Qed.

Lemma self_push_keeps_store_witness :
  snd (Zone.update_other Demo.api (Demo.refusing 500) 1%positive 1%positive
         Demo.two_zones)
  = Zone.logged (put_zone_update Demo.api "http://x" Demo.front) Demo.two_zones.
Proof.
  exact (self_push_keeps_store Demo.api (Demo.refusing 500) 1%positive
           Demo.two_zones Demo.front eq_refl).
Defined.

(** After any setters the zone is the one their assignments give. *)
Lemma run_setters_run (api : API) (srv : server) (self : loc)
    (ms : list setter) (w : Zone.world) (z : Zone.t) :
  Zone.heap w !! self = Some z ->
  run_setters api srv self ms w
  = Zone.World (<[self := assign_all ms z]> (Zone.heap w)) (Zone.host w)
      (Zone.log w ++ setter_requests api (Zone.host w) ms z).
Proof.
  revert w z. induction ms as [|m ms IH]; intros w z Hs; simpl.
  - rewrite app_nil_r, (insert_id _ _ _ Hs). by destruct w.
  - rewrite (run_setter_run api srv self m w z Hs). simpl.
    rewrite (IH _ (assign m z)); simpl; [|apply lookup_insert_eq].
    by rewrite insert_insert_eq, <- app_assoc.
Qed.

Lemma setter_requests_last (api : API) (host : string) (ms : list setter)
    (m : setter) (z : Zone.t) :
  setter_requests api host (ms ++ [m]) z
  = setter_requests api host ms z
    ++ [put_zone_update api host (assign_all (ms ++ [m]) z)].
Proof.
  revert z. induction ms as [|m' ms IH]; intros z; simpl; [done|].
  by rewrite IH.
Qed.

Lemma assign_all_keeps (ms : list setter) (z : Zone.t) :
  Zone.id (assign_all ms z) = Zone.id z
  /\ Zone.state (assign_all ms z) = Zone.state z.
Proof.
  revert z. induction ms as [|m ms IH]; intros z; simpl; [done|].
  destruct (IH (assign m z)) as [-> ->]. by destruct m.
Qed.

(** X16. After any sequence of setter calls on a zone ([enable], [disable],
    [set_time], [set_gpio], [set_name], [set_auto_off], [set_system_order]),
    whether their PUTs succeeded or not, [self] holds the assignments in
    call order (the last write to a field wins), [id] and [state] are
    untouched, one PUT per call has gone out, and the last PUT carries
    exactly the record of [self] as it is now. *)
Theorem setters_leave_last_payload (api : API) (srv : server) (self : loc)
    (ms : list setter) (m : setter) (w : Zone.world) (z : Zone.t) :
  Zone.heap w !! self = Some z ->
  let w' := run_setters api srv self (ms ++ [m]) w in
  let z' := assign m (assign_all ms z) in
  Zone.heap w' !! self = Some z'
  /\ Zone.id z' = Zone.id z /\ Zone.state z' = Zone.state z
  /\ Zone.log w'
     = (Zone.log w ++ setter_requests api (Zone.host w) ms z)
       ++ [put_zone_update api (Zone.host w) z']
  /\ length (Zone.log w') = (length (Zone.log w) + length ms + 1)%nat.
Proof.
  intros Hs w' z'. subst w' z'.
  rewrite (run_setters_run api srv self (ms ++ [m]) w z Hs). simpl.
  assert (assign_all (ms ++ [m]) z = assign m (assign_all ms z)) as Hlast
    by (unfold assign_all; by rewrite fold_left_app).
  rewrite setter_requests_last, Hlast.
  destruct (assign_all_keeps (ms ++ [m]) z) as [Hid Hst]. rewrite Hlast in Hid, Hst.
  split; [apply lookup_insert_eq|]. do 2 (split; [done|]).
  split; [by rewrite app_assoc|].
  rewrite !length_app. simpl.
  assert (length (setter_requests api (Zone.host w) ms z) = length ms) as ->.
  { clear. revert z. induction ms as [|m' ms IH]; intros z; simpl; [done|].
    by rewrite IH. }
  lia.
Qed.

Lemma setters_leave_last_payload_witness :
  Zone.heap (run_setters Demo.api (Demo.refusing 500) 1%positive
               [SetTime 600; Disable; SetTime 900] Demo.two_zones) !! 1%positive
  = Some (Zone.mk (VStr "Front") (VInt 4) (VInt 900) (VBool false) (VBool false)
            (VInt 0) (VBool false) 1).
Proof.
  exact (proj1 (setters_leave_last_payload Demo.api (Demo.refusing 500)
                  1%positive [SetTime 600; Disable] (SetTime 900)
                  Demo.two_zones Demo.front eq_refl)).
Defined.

(** X17. Repeating [update_other] from the same zone changes nothing
    further: the second call leaves every object as the first left it and
    sends the same record again. *)
Theorem update_other_twice (api : API) (srv : server) (self other : loc)
    (w : Zone.world) (z o : Zone.t) :
  Zone.heap w !! self = Some z ->
  Zone.heap w !! other = Some o ->
  let w1 := snd (Zone.update_other api srv self other w) in
  snd (Zone.update_other api srv self other w1)
  = Zone.logged (put_zone_update api (Zone.host w) (merged z o)) w1.
Proof.
  intros Hs Ho w1. subst w1.
  rewrite (update_other_run api srv self other w z o Hs Ho). simpl.
  destruct (decide (self = other)) as [<-|Hne].
  - assert (o = z) as -> by congruence.
    erewrite update_other_run; simpl; [|apply lookup_insert_eq..].
    unfold Zone.logged. simpl. by rewrite insert_insert_eq.
  - erewrite update_other_run; simpl;
      [|apply lookup_insert_eq|by rewrite lookup_insert_ne].
    unfold Zone.logged. simpl. by rewrite insert_insert_eq.
Qed.

Lemma update_other_twice_witness :
  snd (Zone.update_other Demo.api Demo.example_host 1%positive 2%positive
         (snd (Zone.update_other Demo.api Demo.example_host 1%positive 2%positive
                 Demo.two_zones)))
  = Zone.logged (put_zone_update Demo.api "http://x" (merged Demo.front Demo.back))
      (snd (Zone.update_other Demo.api Demo.example_host 1%positive 2%positive
              Demo.two_zones)).
Proof.
  exact (update_other_twice Demo.api Demo.example_host 1%positive 2%positive
           Demo.two_zones Demo.front Demo.back eq_refl eq_refl).
Defined.

(** X18. A refresh followed by a push sends back what was received: after a
    [Zone.update] that read the seven keys, [self.update_other(self)] PUTs the
    values received under name, gpio, time, enabled, auto_off and
    system_order under the keys Name, GPIO, Time, Enabled, Autooff and
    SystemOrder, next to the id; the value received under state is not sent,
    and the push changes no field. *)
Theorem refresh_then_push_round_trip (api : API) (srv : server) (self : loc)
    (w : Zone.world) (z : Zone.t) (resp : response) (d : list (string * value))
    (n g t e a o s : value) :
  Zone.heap w !! self = Some z ->
  srv (Zone.log w) (get_zone_record api (Zone.host w) (Zone.id z)) = Answer resp ->
  body resp = Some (VDict d) ->
  dict_get d "name" = Some n -> dict_get d "gpio" = Some g ->
  dict_get d "time" = Some t -> dict_get d "enabled" = Some e ->
  dict_get d "auto_off" = Some a -> dict_get d "system_order" = Some o ->
  dict_get d "state" = Some s ->
  let w1 := snd (Zone.update api srv self w) in
  snd (Zone.update_other api srv self self w1)
  = Zone.logged
      (Request PUT (Zone.host w +:+ "/" +:+ ZONE_UPDATE_URL api)
         (Some (VDict [("id", VInt (Zone.id z)); ("Name", n); ("GPIO", g);
                       ("Time", t); ("Enabled", e); ("Autooff", a);
                       ("SystemOrder", o)]%string)))
      w1.
Proof.
  intros Hs Hsrv Hbody Hn Hg Ht He Ha Ho Hst w1. subst w1.
  rewrite (update_run_dict api srv self w z resp d Hs Hsrv Hbody).
  simpl. rewrite Hn, Hg, Ht, He, Ha, Ho, Hst. simpl.
  erewrite update_other_run; simpl; [|apply lookup_insert_eq..].
  unfold Zone.logged, put_zone_update, zone_json, merged. simpl.
  by rewrite insert_insert_eq.
Qed.

Lemma refresh_then_push_round_trip_witness :
  snd (Zone.update_other Demo.api Sample.describing 1%positive 1%positive
         (snd (Zone.update Demo.api Sample.describing 1%positive Demo.two_zones)))
  = Zone.logged
      (Request PUT "http://x/zone/update"
         (Some (VDict [("id", VInt 1); ("Name", VStr "Lawn"); ("GPIO", VInt 4);
                       ("Time", VInt 300); ("Enabled", VBool true);
                       ("Autooff", VBool false); ("SystemOrder", VInt 0)]%string)))
      (snd (Zone.update Demo.api Sample.describing 1%positive Demo.two_zones)).
Proof.
  exact (refresh_then_push_round_trip Demo.api Sample.describing 1%positive
           Demo.two_zones Demo.front (Response 200 (Some Demo.lawn_record)) _
           _ _ _ _ _ _ _
           eq_refl eq_refl eq_refl
           eq_refl eq_refl eq_refl eq_refl eq_refl eq_refl eq_refl).
Defined.

(** ** Where the requests go, and what follows a 200 *)



(** The assignment of the fetched zones, as one run. *)
Lemma refresh_zones_run (api : API) (srv : server) (sys : System.t)
    (w : Zone.world) :
  bind (System.get_zones api srv)
    (fun zs => System.self_set (System.set_zones_field zs)) (sys, w)
  = (match fst (System._fetch_zones api srv (sys, w)) with
     | Ok _ => Ok tt
     | Raise e => Raise e
     end,
     (sys, Zone.logged (get_zone_info api (System.host sys)) w)).
Proof.
  unfold System.get_zones, bind.
  pose proof (fetch_zones_state api srv (sys, w)) as Hs.
  destruct (System._fetch_zones api srv (sys, w)) as [[zs|e] [s1 w1]];
    simpl in *; [|by rewrite Hs].
  injection Hs as -> ->. unfold System.self_get, System.self_set, gets, modify.
  simpl. by destruct sys.
Qed.

(** X20. After a 200 on its POST or PUT, [add_zone] and [update_zone_order]
    fetch the zone list, and their outcome is the outcome of that fetch: if
    the fetch raises (transport failure, a body that is not JSON, a JSON
    value that cannot be iterated) the call raises that exception although
    the server accepted the change. The [System] object is as before in
    every case. *)
Theorem accepted_mutation_outcome (api : API) (srv : server) (sys : System.t)
    (w : Zone.world) :
  (forall zone_order resp,
      srv (Zone.log w) (put_zone_order api (System.host sys) zone_order)
      = Answer resp ->
      status_code resp = 200 ->
      System.update_zone_order api srv zone_order (sys, w)
      = (match fst (System._fetch_zones api srv
                      (sys, Zone.logged
                              (put_zone_order api (System.host sys) zone_order) w)) with
         | Ok _ => Ok tt
         | Raise e => Raise e
         end,
         (sys, Zone.logged (get_zone_info api (System.host sys))
                 (Zone.logged (put_zone_order api (System.host sys) zone_order) w))))
  /\ (forall zone z resp,
        Zone.heap w !! zone = Some z ->
        srv (Zone.log w) (post_zone api (System.host sys) z) = Answer resp ->
        status_code resp = 200 ->
        System.add_zone api srv zone (sys, w)
        = (match fst (System._fetch_zones api srv
                        (sys, Zone.logged (post_zone api (System.host sys) z) w)) with
           | Ok _ => Ok tt
           | Raise e => Raise e
           end,
           (sys, Zone.logged (get_zone_info api (System.host sys))
                   (Zone.logged (post_zone api (System.host sys) z) w)))).
Proof.
  split.
  - intros zone_order resp Hsrv Hst%Z.eqb_eq.
    rewrite <- refresh_zones_run.
    revert Hsrv. unfold System.update_zone_order, put_zone_order.
    unfold bind at 1 2. unfold System.self_get, gets. simpl.
    unfold System.in_world, Zone.send. simpl. intros ->. simpl.
    by rewrite Hst.
  - intros zone z resp Hz Hsrv Hst%Z.eqb_eq.
    rewrite <- refresh_zones_run.
    revert Hsrv. unfold System.add_zone, post_zone.
    unfold bind at 1 2 3. unfold System.self_get, gets. simpl.
    unfold System.in_world, Zone.load, Zone.send. simpl. rewrite Hz. simpl.
    intros ->. simpl. by rewrite Hst.
Qed.

Lemma accepted_mutation_outcome_witness :
  System.update_zone_order Demo.api Sample.garbling [1; 2]
    (Demo.front_system, Demo.two_zones)
  = (Raise JSONDecodeError,
     (Demo.front_system,
      Zone.logged (get_zone_info Demo.api "http://x")
        (Zone.logged (put_zone_order Demo.api "http://x" [1; 2]) Demo.two_zones)))
  /\ System.add_zone Demo.api Sample.garbling 2%positive
       (Demo.front_system, Demo.two_zones)
     = (Raise JSONDecodeError,
        (Demo.front_system,
         Zone.logged (get_zone_info Demo.api "http://x")
           (Zone.logged (post_zone Demo.api "http://x" Demo.back) Demo.two_zones))).
Proof.
  destruct (accepted_mutation_outcome Demo.api Sample.garbling
              Demo.front_system Demo.two_zones) as [Hord Hadd].
  split.
  - exact (Hord [1; 2] (Response 200 None) eq_refl eq_refl).
  - exact (Hadd 2%positive Demo.back (Response 200 None) eq_refl eq_refl eq_refl).
Defined.
